(** * Blue-green deployment middleware: the routing pipeline and its proxy

    A shallow embedding of [lib/services/deployment] (the target resolver,
    the traffic splitter, the proxy fetcher, the response merger and
    [handleDeployment]) together with the parts of the Web platform it
    calls: [Headers], [URL], response cookies, [fetch], [Math.random] and
    [console].

    JavaScript strings are [string]; numbers that are compared ([Math.random()
    * 100], [trafficRcPercent]) are rationals, which the finite doubles are and
    on which [<] is exact; HTTP status codes are [Z].  The two objects the
    caller hands in and the code mutates in place (the forwarded [Headers] and
    the base [NextResponse]) live in a store that a small state-and-exception
    monad threads through the calls; a returned response is either that very
    base object or a new one.  The trace of a run records the requests sent
    upstream and the console calls, the latter by their first argument.

    The platform is modelled as the code relies on it: header values are
    stored as given, the headers of a fetched response can be appended to,
    and a request carries the URL the framework parsed for it. *)

From Stdlib Require Import String Ascii List ZArith QArith Lia Lqa Bool DecimalString.
Import ListNotations.
Close Scope Q_scope.
Open Scope string_scope.

(** ** JavaScript strings *)

Module Js.

Definition lower_ascii (c : ascii) : ascii :=
  let n := nat_of_ascii c in
  if ((65 <=? n) && (n <=? 90))%nat then ascii_of_nat (n + 32) else c.

Fixpoint lower (s : string) : string :=
  match s with
  | EmptyString => EmptyString
  | String c t => String (lower_ascii c) (lower t)
  end.

(** [hay.includes(needle)] *)
Fixpoint includes (needle hay : string) : bool :=
  if String.prefix needle hay then true
  else match hay with
       | EmptyString => false
       | String _ t => includes needle t
       end.

(** Truthiness of a [string | null]: [null] and [''] are falsy. *)
Definition truthy (v : option string) : bool :=
  match v with
  | Some s => negb (s =? "")
  | None => false
  end.

(** [v || d] on a [string | null]. *)
Definition or_else (v : option string) (d : string) : string :=
  match v with
  | Some s => if s =? "" then d else s
  | None => d
  end.

(** [v === s] on a [string | null | undefined]. *)
Definition strict_eq (v : option string) (s : string) : bool :=
  match v with
  | Some x => x =? s
  | None => false
  end.

(** [!v] on a [boolean | undefined]. *)
Definition not (v : option bool) : bool :=
  match v with
  | Some true => false
  | _ => true
  end.

(** An element of an array literal that mixes strings and arrays of
    strings, with its [toString()]. *)
Inductive Item :=
| Str (s : string)
| Arr (l : list string).

Definition toString (i : Item) : string :=
  match i with
  | Str s => s
  | Arr l => String.concat "," l
  end.

(** Decimal rendering of an integer, as string interpolation gives it. *)
Definition show (z : Z) : string := NilZero.string_of_int (Z.to_int z).

End Js.

(** ** The [Headers] class

    A header list in insertion order.  Names are compared without regard to
    ASCII case and stored in lower case; a name may occur several times. *)

Module Headers.

Definition t := list (string * string).

Definition named (name : string) (e : string * string) : bool :=
  Js.lower (fst e) =? Js.lower name.

Definition has (h : t) (name : string) : bool := existsb (named name) h.

Definition values (h : t) (name : string) : list string :=
  map snd (filter (named name) h).

(** [get] combines the values of a repeated name with a comma and a
    space, and gives [null] when the name is absent. *)
Definition get (h : t) (name : string) : option string :=
  match values h name with
  | [] => None
  | vs => Some (String.concat ", " vs)
  end.

Definition delete (h : t) (name : string) : t :=
  filter (fun e => negb (named name e)) h.

Definition append (h : t) (name value : string) : t :=
  (h ++ [(Js.lower name, value)])%list.

(** [set] overwrites the first occurrence and drops the others, or appends
    when there is none.  The value is stored as given: the platform strips
    the white space around a value and rejects a value with a line break,
    neither of which a host name has. *)
Fixpoint set (h : t) (name value : string) : t :=
  match h with
  | [] => [(Js.lower name, value)]
  | e :: rest =>
      if named name e then (Js.lower name, value) :: delete rest name
      else e :: set rest name value
  end.

Definition getSetCookie (h : t) : list string := values h "set-cookie".

End Headers.

(** ** The [URL] class *)

Module URL.

(** The components as the getters of a [URL] object return them:
    [protocol] ends in a colon, [search] and [hash] are empty or start with
    their delimiter, [port] is empty for the default port. *)
Record t := mk {
  protocol : string;
  username : string;
  password : string;
  hostname : string;
  port : string;
  pathname : string;
  search : string;
  hash : string
}.

Definition userinfo (u : t) : string :=
  if (username u =? "") && (password u =? "") then ""
  else if password u =? "" then username u ++ "@"
  else username u ++ ":" ++ password u ++ "@".

Definition host (u : t) : string :=
  if port u =? "" then hostname u else hostname u ++ ":" ++ port u.

Definition href (u : t) : string :=
  protocol u ++ "//" ++ userinfo u ++ host u
    ++ pathname u ++ search u ++ hash u.

(** [url.hostname = h].  The targets written here are host names in the
    form the URL keeps them in, which the setter stores as given.  For a
    value of another form (upper-case letters, a port, an empty value) the
    platform stores another host or leaves the URL as it is; what is proved
    about the host of an upstream URL is proved for host names. *)
Definition set_hostname (u : t) (h : string) : t :=
  mk (protocol u) (username u) (password u) h (port u)
     (pathname u) (search u) (hash u).

(** *** Parsing, up to the scheme

    [new URL(s)] without a base first scans a scheme; an input without one
    is not a URL and the constructor throws.  What follows the scheme
    (authority, host, path, query, fragment) is parsed by the runtime. *)

Definition is_c0_or_space (c : ascii) : bool := (nat_of_ascii c <=? 32)%nat.

Definition is_tab_or_newline (c : ascii) : bool :=
  let n := nat_of_ascii c in ((n =? 9) || (n =? 10) || (n =? 13))%nat.

Fixpoint ltrim (l : list ascii) : list ascii :=
  match l with
  | c :: t => if is_c0_or_space c then ltrim t else l
  | [] => []
  end.

Definition strip (s : string) : string :=
  let l := list_ascii_of_string s in
  let l := rev (ltrim (rev (ltrim l))) in
  string_of_list_ascii (filter (fun c => negb (is_tab_or_newline c)) l).

Definition is_alpha (c : ascii) : bool :=
  let n := nat_of_ascii (Js.lower_ascii c) in ((97 <=? n) && (n <=? 122))%nat.

Definition is_digit (c : ascii) : bool :=
  let n := nat_of_ascii c in ((48 <=? n) && (n <=? 57))%nat.

Definition is_scheme_char (c : ascii) : bool :=
  is_alpha c || is_digit c
  || Ascii.eqb c "+" || Ascii.eqb c "-" || Ascii.eqb c ".".

Fixpoint scheme_tail (acc s : string) : option (string * string) :=
  match s with
  | EmptyString => None
  | String c t =>
      if is_scheme_char c
      then scheme_tail (acc ++ String (Js.lower_ascii c) "") t
      else if Ascii.eqb c ":" then Some (acc, t)
      else None
  end.

(** The scheme in lower case and what follows its colon. *)
Definition scan_scheme (s : string) : option (string * string) :=
  match s with
  | String c t =>
      if is_alpha c then scheme_tail (String (Js.lower_ascii c) "") t
      else None
  | EmptyString => None
  end.

Definition parse (after_scheme : string -> string -> option t)
    (s : string) : option t :=
  match scan_scheme (strip s) with
  | Some (scheme, rest) => after_scheme scheme rest
  | None => None
  end.

End URL.

(** ** Responses and requests *)

Module Response.

Record t := mk {
  status : Z;
  headers : Headers.t;
  body : string
}.

(** [response.headers.append(name, value)] on a response object. *)
Definition append (r : t) (name value : string) : t :=
  mk (status r) (Headers.append (headers r) name value) (body r).

End Response.

(** [response.cookies] of a [NextResponse]: a map from cookie name to
    [Set-Cookie] line, read from the response headers; [set] puts one cookie
    in the map and writes every line of the map back as a header of its
    own.  Lines that are already there are kept as they are written, and
    the copy of the cookies that the framework keeps in the header
    [x-middleware-set-cookie] is left out: only the [Set-Cookie] lines are
    followed. *)

Module ResponseCookies.

Fixpoint cookie_name (line : string) : string :=
  match line with
  | EmptyString => EmptyString
  | String c t => if Ascii.eqb c "=" then EmptyString else String c (cookie_name t)
  end.

(** The line for a cookie set with [{ maxAge }]: the path defaults to [/]
    and the expiry date is derived from the clock.  The values written
    here consist of letters, which are not escaped. *)
Definition stringify (expires name value : string) (maxAge : Z) : string :=
  name ++ "=" ++ value ++ "; Path=/; Expires=" ++ expires
    ++ "; Max-Age=" ++ Js.show maxAge.

(** [Map.prototype.set]: an existing key keeps its place. *)
Fixpoint jar_set (jar : list (string * string)) (name line : string)
    : list (string * string) :=
  match jar with
  | [] => [(name, line)]
  | e :: rest =>
      if fst e =? name then (name, line) :: rest
      else e :: jar_set rest name line
  end.

Definition jar_of (h : Headers.t) : list (string * string) :=
  fold_left (fun jar line => jar_set jar (cookie_name line) line)
            (Headers.getSetCookie h) [].

Definition write_back (jar : list (string * string)) (h : Headers.t)
    : Headers.t :=
  fold_left (fun acc e => Headers.append acc "set-cookie" (snd e))
            jar (Headers.delete h "set-cookie").

Definition set (expires : string) (h : Headers.t)
    (name value : string) (maxAge : Z) : Headers.t :=
  write_back (jar_set (jar_of h) name (stringify expires name value maxAge)) h.

End ResponseCookies.

Module NextRequest.

(** [cookies] holds the entries of the request's cookie map, one per
    name.  The request is built by the framework from a URL it has parsed,
    which [nextUrl] keeps and [url] serialises. *)
Record t := mk {
  method : string;
  nextUrl : URL.t;
  headers : Headers.t;
  cookies : list (string * string)
}.

Definition url (r : t) : string := URL.href (nextUrl r).

(** [request.cookies.get(name)?.value] *)
Definition cookie (r : t) (name : string) : option string :=
  option_map snd (find (fun e => fst e =? name) (cookies r)).

End NextRequest.

(** ** The runtime, and what a call does to the world *)

Inductive Level := Log | Info | Warn | Error.

(** The first argument of a [console] call, which tells the calls apart. *)
Inductive Tag :=
| Num (z : Z)
| Msg (s : string).

Record RequestInit := {
  init_method : option string;
  init_headers : Headers.t;
  init_redirect : option string
}.


Inductive Event :=
| Console (level : Level) (first : Tag)
| Fetch (url : URL.t) (init : RequestInit).

Definition is_fetch (e : Event) : bool :=
  match e with
  | Fetch _ _ => true
  | Console _ _ => false
  end.

(** What one invocation of the middleware gets from outside:
    - [after_scheme]: the URL parser of the runtime past the scheme
      ([None] when it rejects the input);
    - [random_x100]: the value of [Math.random() * 100];
    - [upstream]: the response of the network to a request ([None] when the
      transport fails and [fetch] rejects);
    - [expires_at]: the UTC date text of the clock plus so many seconds. *)
Record Runtime := {
  after_scheme : string -> string -> option URL.t;
  random_x100 : Q;
  upstream : URL.t -> RequestInit -> option Response.t;
  expires_at : Z -> string
}.

(** The mutable objects of one call, [headers] and [response] of
    [handleDeployment], and the trace of console and network calls. *)
Record Store := {
  forwarded : Headers.t;
  base : Response.t;
  journal : list Event
}.

Inductive Exn :=
| TypeError (message : string).

Definition M (A : Type) : Type := Store -> (Exn + A) * Store.

Definition ret {A} (a : A) : M A := fun s => (inr a, s).

Definition bind {A B} (m : M A) (k : A -> M B) : M B :=
  fun s =>
    match m s with
    | (inr a, s') => k a s'
    | (inl e, s') => (inl e, s')
    end.

Definition throw {A} (e : Exn) : M A := fun s => (inl e, s).

Notation "x <- m ;; k" := (bind m (fun x => k))
  (at level 61, m at next level, right associativity).
Notation "m ;; k" := (bind m (fun _ => k))
  (at level 61, right associativity).

Definition emit (e : Event) : M unit :=
  fun s => (inr tt, {| forwarded := forwarded s; base := base s;
                       journal := (journal s ++ [e])%list |}).

Definition console (l : Level) (first : Tag) : M unit := emit (Console l first).

Definition the_headers : M Headers.t := fun s => (inr (forwarded s), s).

Definition the_response : M Response.t := fun s => (inr (base s), s).

Definition update_headers (f : Headers.t -> Headers.t) : M unit :=
  fun s => (inr tt, {| forwarded := f (forwarded s); base := base s;
                       journal := journal s |}).

Definition update_response (f : Response.t -> Response.t) : M unit :=
  fun s => (inr tt, {| forwarded := forwarded s; base := f (base s);
                       journal := journal s |}).

(** The response a call returns: the caller's own object, or a new one. *)
Inductive Returned :=
| Base
| Fresh (r : Response.t).

Definition contents (r : Returned) (s : Store) : Response.t :=
  match r with
  | Base => base s
  | Fresh x => x
  end.


(** ** [lib/services/deployment] *)

Definition MAX_AGE : Z := 60 * 60 * 24.

Definition MAX_AGE_TOKEN : Z := 2592000.

Inductive Env := rc | production.

Record BlueGreenConfig := { trafficRcPercent : Q }.

(** [x < y] on numbers. *)
Definition Qltb (x y : Q) : bool :=
  (Qnum x * QDen y <? Qnum y * QDen x)%Z.

Section Deployment.

Variable rt : Runtime.

(** [new URL(s)], which throws a [TypeError] on what is not a URL. *)
Definition new_URL (s : string) : Exn + URL.t :=
  match URL.parse (after_scheme rt) s with
  | Some u => inr u
  | None => inl (TypeError "Invalid URL")
  end.

Definition lift {A} (v : Exn + A) : M A := fun s => (v, s).

(** [new URL(req.url)]: the URL of a request parses to the record it was
    serialised from. *)
Definition request_URL (req : NextRequest.t) : M URL.t :=
  ret (NextRequest.nextUrl req).

Definition formatDeploymentUrl (deploymentUrl : string) : Exn + string :=
  if String.prefix "http" (Js.or_else (Some deploymentUrl) "")
  then match new_URL (Js.or_else (Some deploymentUrl) "") with
       | inr u => inr (URL.hostname u)
       | inl e => inl e
       end
  else inr deploymentUrl.

Definition fetch (url : URL.t) (init : RequestInit) : M Response.t :=
  emit (Fetch url init) ;;
  match upstream rt url init with
  | Some r => ret r
  | None => throw (TypeError "fetch failed")
  end.

Definition getNextResponse (req : NextRequest.t) (domain uuid : string)
    : M Response.t :=
  formattedDomain <- lift (formatDeploymentUrl domain) ;;
  url <- request_URL req ;;
  let url := URL.set_hostname url formattedDomain in
  update_headers
    (fun h => Headers.set h "x-deployment-override" formattedDomain) ;;
  headers <- the_headers ;;
  deployment <- fetch url {| init_method := None;
                             init_headers := headers;
                             init_redirect := Some "manual" |} ;;
  console Log (Msg "[DEPLOYMENT] Cookie List") ;;
  (if (400 <=? Response.status deployment)%Z
   then console Error (Msg "[DEPLOYMENT] deployment response status code")
   else ret tt) ;;
  ret deployment.

Definition selectBlueGreenDeployment (config : BlueGreenConfig) : Env :=
  if Qltb (random_x100 rt) (trafficRcPercent config) then rc else production.

Definition fetchRCDeployment (req : NextRequest.t) (uuid rcDomain : string)
    : M Returned :=
  response <- getNextResponse req rcDomain uuid ;;
  _response <- the_response ;;
  let items :=
    (map Js.Str (Headers.getSetCookie (Response.headers _response))
       ++ [Js.Arr ["release_candidate=true"]])%list in
  ret (Fresh (fold_left
                (fun r value => Response.append r "set-cookie" (Js.toString value))
                items response)).

(** The three tests of step 1. *)
Definition isDocumentRequest (request : NextRequest.t) : option bool :=
  let h := NextRequest.headers request in
  if Headers.has h "sec-fetch-dest"
  then Some (Js.strict_eq (Headers.get h "sec-fetch-dest") "document")
  else option_map (Js.includes "text/html") (Headers.get h "accept").

Definition isVercelUserAgent (userAgent : string) : bool :=
  Js.includes "vercel" (Js.lower userAgent).

Definition shouldSkipBlueGreenDeployment
    (request : NextRequest.t) (userAgent : string) : bool :=
  false
  || negb (NextRequest.method request =? "GET")
  || Js.not (isDocumentRequest request)
  || isVercelUserAgent userAgent
  || false.

Definition productionRcConfig : option BlueGreenConfig :=
  Some {| trafficRcPercent := 90 # 1 |}.

Definition handleDeployment (request : NextRequest.t)
    (uuid config rcDomain : string) : M Returned :=
  url <- request_URL request ;;
  headers <- the_headers ;;
  let userAgent := Js.or_else (Headers.get headers "user-agent") "" in
  if shouldSkipBlueGreenDeployment request userAgent then
    console Info (Msg "[DEPLOYMENT] Skipping blue-green deployment.") ;;
    console Log (Num (-1)) ;;
    ret Base
  else if Js.strict_eq (NextRequest.cookie request "release_candidate") "false" then
    console Log (Num 0) ;;
    ret Base
  else if Js.truthy (Headers.get (NextRequest.headers request) "x-deployment-override") then
    console Info (Msg "[DEPLOYMENT] Skipping middleware as x-deployment-override header is present.") ;;
    console Log (Num 1) ;;
    ret Base
  else if URL.pathname url =? "/release-candidate" then
    console Info (Msg "[DEPLOYMENT] Enforce the deployment to the release candidate environment.") ;;
    fetchRCDeployment request uuid rcDomain
  else if Js.strict_eq (NextRequest.cookie request "release_candidate") "true" then
    console Info (Msg "[DEPLOYMENT] Serving release candidate environment") ;;
    fetchRCDeployment request uuid rcDomain
  else
    match productionRcConfig with
    | None =>
        console Warn (Msg "productionRcConfig does not exist. Skipping prod-rc deployment configuration.") ;;
        ret Base
    | Some productionRcConfig =>
        let env := selectBlueGreenDeployment productionRcConfig in
        match env with
        | production =>
            update_response
              (fun r => Response.mk (Response.status r)
                          (ResponseCookies.set (expires_at rt MAX_AGE)
                             (Response.headers r)
                             "release_candidate" "false" MAX_AGE)
                          (Response.body r)) ;;
            console Log (Num 3) ;;
            ret Base
        | rc =>
            console Info (Msg "[DEPLOYMENT] Roll the dice to determine which deployment to use.") ;;
            console Log (Num 4) ;;
            fetchRCDeployment request uuid rcDomain
        end
    end.

End Deployment.


(** ** Observations on a run *)

(** The events a run added to the trace. *)
Definition since (st st' : Store) : list Event :=
  skipn (length (journal st)) (journal st').

Definition fetches (evs : list Event) : list Event := filter is_fetch evs.

(** The store after console or network calls that touched no object. *)
Definition logged (st : Store) (evs : list Event) : Store :=
  {| forwarded := forwarded st; base := base st;
     journal := (journal st ++ evs)%list |}.

(** A pass-through: the call returns the caller's response object, neither
    that object nor the forwarded headers were written to, and no request
    went upstream. *)
Definition passes_through (st : Store) (out : (Exn + Returned) * Store) : Prop :=
  exists evs, out = (inr Base, logged st evs) /\ fetches evs = [].

(** The origin of a routing decision, in the order the pipeline decides. *)
Inductive Origin :=
| skipped | sticky_false | loop_guard | forced_path | sticky_true | random.

Definition origin_of (request : NextRequest.t) (st : Store) : Origin :=
  let userAgent := Js.or_else (Headers.get (forwarded st) "user-agent") "" in
  if shouldSkipBlueGreenDeployment request userAgent then skipped
  else if Js.strict_eq (NextRequest.cookie request "release_candidate") "false"
  then sticky_false
  else if Js.truthy (Headers.get (NextRequest.headers request) "x-deployment-override")
  then loop_guard
  else if URL.pathname (NextRequest.nextUrl request) =? "/release-candidate"
  then forced_path
  else if Js.strict_eq (NextRequest.cookie request "release_candidate") "true"
  then sticky_true
  else random.

(** Document requests as the specification words them: decided by
    [Sec-Fetch-Dest] when the request has that header, by [Accept]
    otherwise. *)
Definition is_document (request : NextRequest.t) : bool :=
  let h := NextRequest.headers request in
  match Headers.get h "sec-fetch-dest" with
  | Some dest => dest =? "document"
  | None =>
      match Headers.get h "accept" with
      | Some accept => Js.includes "text/html" accept
      | None => false
      end
  end.

(** The upstream request of the proxy for a request and a target host. *)
Definition upstream_url (req : NextRequest.t) (target : string) : URL.t :=
  URL.set_hostname (NextRequest.nextUrl req) target.

Definition upstream_init (st : Store) (target : string) : RequestInit :=
  {| init_method := None;
     init_headers := Headers.set (forwarded st) "x-deployment-override" target;
     init_redirect := Some "manual" |}.

(** The merge of the proxy: the upstream response followed by the cookies
    of the base response and the sticky cookie, each a header of its own. *)
Definition merged (upstream_response base_response : Response.t) : Response.t :=
  Response.mk (Response.status upstream_response)
    (Response.headers upstream_response
       ++ map (fun line => ("set-cookie", line))
              (Headers.getSetCookie (Response.headers base_response)
                 ++ ["release_candidate=true"]))%list
    (Response.body upstream_response).

(** The store and the trace after the proxy has run for a target host. *)
Definition proxied (st : Store) (target : string) (evs : list Event) : Store :=
  {| forwarded := Headers.set (forwarded st) "x-deployment-override" target;
     base := base st;
     journal := (journal st ++ evs)%list |}.

Definition status_events (r : Response.t) : list Event :=
  if (400 <=? Response.status r)%Z
  then [Console Error (Msg "[DEPLOYMENT] deployment response status code")]
  else [].

Definition proxy_events (req : NextRequest.t) (st : Store) (target : string)
    (r : Response.t) : list Event :=
  (Fetch (upstream_url req target) (upstream_init st target)
     :: Console Log (Msg "[DEPLOYMENT] Cookie List")
     :: status_events r)%list.

(** The console calls that mark the exits and the entries to the proxy. *)
Definition skip_events : list Event :=
  [Console Info (Msg "[DEPLOYMENT] Skipping blue-green deployment.");
   Console Log (Num (-1))].

Definition sticky_false_events : list Event := [Console Log (Num 0)].

Definition loop_guard_events : list Event :=
  [Console Info (Msg "[DEPLOYMENT] Skipping middleware as x-deployment-override header is present.");
   Console Log (Num 1)].

Definition forced_path_events : list Event :=
  [Console Info (Msg "[DEPLOYMENT] Enforce the deployment to the release candidate environment.")].

Definition sticky_true_events : list Event :=
  [Console Info (Msg "[DEPLOYMENT] Serving release candidate environment")].

Definition split_rc_events : list Event :=
  [Console Info (Msg "[DEPLOYMENT] Roll the dice to determine which deployment to use.");
   Console Log (Num 4)].

Definition split_production_events : list Event := [Console Log (Num 3)].

(** The base response after the split has chosen production. *)
Definition pinned_to_production (rt : Runtime) (r : Response.t) : Response.t :=
  Response.mk (Response.status r)
    (ResponseCookies.set (expires_at rt MAX_AGE) (Response.headers r)
       "release_candidate" "false" MAX_AGE)
    (Response.body r).

Definition production_store (rt : Runtime) (st : Store) : Store :=
  {| forwarded := forwarded st;
     base := pinned_to_production rt (base st);
     journal := (journal st ++ split_production_events)%list |}.

Definition is_warn (e : Event) : bool :=
  match e with
  | Console Warn _ => true
  | _ => false
  end.

(** The response that goes out, when the run returns one. *)
Definition outgoing (out : (Exn + Returned) * Store) : option Response.t :=
  match fst out with
  | inr r => Some (contents r (snd out))
  | inl _ => None
  end.

(** The line that pins a client to production. *)
Definition production_line (rt : Runtime) : string :=
  ResponseCookies.stringify (expires_at rt MAX_AGE)
    "release_candidate" "false" MAX_AGE.

(** A run that went to the proxy: the base response is left alone, and a
    response that comes back is the upstream one with the cookie lines of
    the base response and [release_candidate=true] behind its own. *)
Definition writes_rc_cookie (st : Store) (out : (Exn + Returned) * Store)
    : Prop :=
  base (snd out) = base st
  /\ forall r : Response.t,
       outgoing out = Some r ->
       exists up : Response.t,
         fst out = inr (Fresh (merged up (base st)))
         /\ Headers.getSetCookie (Response.headers r)
            = (Headers.getSetCookie (Response.headers up)
                 ++ Headers.getSetCookie (Response.headers (base st))
                 ++ ["release_candidate=true"])%list.

(** A run that pinned the client to production: the base response comes
    back with the production line among its cookies. *)
Definition writes_production_cookie (rt : Runtime) (st : Store)
    (out : (Exn + Returned) * Store) : Prop :=
  fst out = inr Base
  /\ forwarded (snd out) = forwarded st
  /\ base (snd out) = pinned_to_production rt (base st)
  /\ In (production_line rt)
        (Headers.getSetCookie (Response.headers (base (snd out)))).

(** ** A small world for examples *)

Module Demo.

Fixpoint break_at (p : ascii -> bool) (s : string) : string * string :=
  match s with
  | EmptyString => (EmptyString, EmptyString)
  | String c t =>
      if p c then (EmptyString, s)
      else let (a, b) := break_at p t in (String c a, b)
  end.

Definition one_of (set : string) (c : ascii) : bool :=
  existsb (Ascii.eqb c) (list_ascii_of_string set).

Definition drop1 (s : string) : string :=
  match s with
  | String _ t => t
  | EmptyString => EmptyString
  end.

(** Hierarchical URLs with a plain host: [//host[:port][/path][?query][#fragment]]. *)
Definition hierarchical (scheme rest : string) : option URL.t :=
  if String.prefix "//" rest then
    let (authority, tail) := break_at (one_of "/?#") (drop1 (drop1 rest)) in
    let (host, port) := break_at (one_of ":") authority in
    let (path, tail) := break_at (one_of "?#") tail in
    let (query, fragment) := break_at (one_of "#") tail in
    if host =? "" then None
    else Some (URL.mk (scheme ++ ":") "" "" host (drop1 port)
                 (if path =? "" then "/" else path)
                 (if query =? "?" then "" else query)
                 (if fragment =? "#" then "" else fragment))
  else None.

Definition rc_page : Response.t :=
  Response.mk 200 [("content-type", "text/html"); ("set-cookie", "b=2")]
              "<html>release candidate</html>".

Definition world : Runtime :=
  {| after_scheme := hierarchical;
     random_x100 := 50 # 1;
     upstream := fun _ _ => Some rc_page;
     expires_at := fun _ => "Wed, 04 Nov 2026 10:00:00 GMT" |}.

(** The same world with a draw above the weight. *)
Definition world_high : Runtime :=
  {| after_scheme := hierarchical;
     random_x100 := 95 # 1;
     upstream := fun _ _ => Some rc_page;
     expires_at := fun _ => "Wed, 04 Nov 2026 10:00:00 GMT" |}.

Definition page (path query : string) : URL.t :=
  URL.mk "https:" "" "" "example.com" "" path query "".

Definition browser : Headers.t :=
  [("accept", "text/html,application/xhtml+xml");
   ("user-agent", "Mozilla/5.0")].

Definition get (path query : string) (extra : Headers.t)
    (cookies : list (string * string)) : NextRequest.t :=
  NextRequest.mk "GET" (page path query) (browser ++ extra)%list cookies.

Definition post (path : string) : NextRequest.t :=
  NextRequest.mk "POST" (page path "") browser [].

(** The objects the middleware passes in: a copy of the request headers and
    a response that already carries a cookie. *)
Definition store (req : NextRequest.t) : Store :=
  {| forwarded := NextRequest.headers req;
     base := Response.mk 200 [("set-cookie", "a=1")] "";
     journal := [] |}.

Definition run (w : Runtime) (req : NextRequest.t) : (Exn + Returned) * Store :=
  handleDeployment w req "1762164000000"
    "nectarsleep-production-rc-configuration" "rc.example.com" (store req).

(** A request that carries the loop-guard header without a value. *)
Definition empty_marker : NextRequest.t :=
  get "/release-candidate" "" [("x-deployment-override", "")] [].

Definition marked : NextRequest.t :=
  get "/release-candidate" "" [("x-deployment-override", "rc.example.com")] [].

Definition pinned_away : NextRequest.t :=
  get "/release-candidate" "" [] [("release_candidate", "false")].

Definition pinned_to_rc : NextRequest.t :=
  get "/foo" "?x=1" [] [("release_candidate", "true")].

Definition forced : NextRequest.t := get "/release-candidate" "" [] [].

Definition plain : NextRequest.t := get "/" "" [] [].

End Demo.


(** ** Further observations on the pipeline *)

(** The same runtime with another value of [Math.random() * 100]. *)
Definition with_draw (rt : Runtime) (draw : Q) : Runtime :=
  {| after_scheme := after_scheme rt;
     random_x100 := draw;
     upstream := upstream rt;
     expires_at := expires_at rt |}.

(** The runs that call [fetchRCDeployment]. *)
Definition proxies (rt : Runtime) (request : NextRequest.t) (st : Store) : bool :=
  match origin_of request st with
  | forced_path | sticky_true => true
  | random => Qltb (random_x100 rt) (90 # 1)
  | skipped | sticky_false | loop_guard => false
  end.

Definition is_error_log (e : Event) : bool :=
  match e with
  | Console Error _ => true
  | _ => false
  end.

(** Whether a character occurs in a string. *)
Definition mentions (c : ascii) (s : string) : bool :=
  existsb (Ascii.eqb c) (list_ascii_of_string s).

(** The [Set-Cookie] lines of a response that set a given cookie. *)
Definition lines_of (name : string) (r : Response.t) : list string :=
  filter (fun line => ResponseCookies.cookie_name line =? name)
         (Headers.getSetCookie (Response.headers r)).

(** More worlds for examples. *)

Module Scenario.

(** The network is down. *)
Definition offline : Runtime :=
  {| after_scheme := Demo.hierarchical;
     random_x100 := 50 # 1;
     upstream := fun _ _ => None;
     expires_at := fun _ => "Wed, 04 Nov 2026 10:00:00 GMT" |}.



(** A run with another target. *)
Definition run_to (w : Runtime) (req : NextRequest.t) (rcDomain : string)
    : (Exn + Returned) * Store :=
  handleDeployment w req "1762164000000"
    "nectarsleep-production-rc-configuration" rcDomain (Demo.store req).


(** A base response that already pins the client to production. *)
Definition pinned_store (req : NextRequest.t) : Store :=
  {| forwarded := NextRequest.headers req;
     base := Response.mk 200
               [("set-cookie", "a=1");
                ("set-cookie", "release_candidate=false; Path=/");
                ("vary", "accept")] "";
     journal := [] |}.

End Scenario.

(** ** Iterating a [Headers] object

    [entries()] lists the names in lower case and in ascending order; the
    values of a repeated name are combined, except for [set-cookie], whose
    values are listed one by one. *)

Module Iteration.

Fixpoint insert_name (n : string) (names : list string) : list string :=
  match names with
  | [] => [n]
  | m :: rest =>
      match String.compare n m with
      | Lt => n :: names
      | Eq => names
      | Gt => m :: insert_name n rest
      end
  end.

Definition names (h : Headers.t) : list string :=
  fold_right (fun e acc => insert_name (Js.lower (fst e)) acc) [] h.

Definition entries (h : Headers.t) : list (string * string) :=
  flat_map
    (fun n =>
       if n =? "set-cookie" then map (pair n) (Headers.values h n)
       else [(n, String.concat ", " (Headers.values h n))])
    (names h).

End Iteration.

(** ** The echo routes [app/api/a] and [app/api/b]

    Each route answers with the headers of its request as JSON.  A request
    that does not carry [x-initial-route] is first marked with the name of
    the route and sent on to the other route, whose response headers are
    added to the answer.  The [Headers] object of the store is
    [request.headers]; the response object of the store is not used.  The
    body of the answer is the object handed to [NextResponse.json]. *)

Record Payload := {
  reqHeaders : list (string * string);
  resHeaders : option (list (string * string))
}.

(** [`${v}`] for an environment variable, which may be undefined. *)
Definition template (v : option string) : string :=
  match v with
  | Some s => s
  | None => "undefined"
  end.

(** [fetch] with a URL given as text: what does not parse is rejected. *)
Definition fetch_text (rt : Runtime) (url : string) (init : RequestInit)
    : M Response.t :=
  u <- lift (new_URL rt url) ;;
  fetch rt u init.

Module RouteA.

Definition GET (rt : Runtime) (VERCEL_URL : option string) : M Payload :=
  reqHeaders <- the_headers ;;
  if negb (Headers.has reqHeaders "x-initial-route") then
    update_headers (fun h => Headers.set h "x-initial-route" "a") ;;
    reqHeaders <- the_headers ;;
    res <- fetch_text rt ("https://" ++ template VERCEL_URL ++ "/api/b")
             {| init_method := None;
                init_headers := reqHeaders;
                init_redirect := None |} ;;
    let resHeaders := Iteration.entries (Response.headers res) in
    reqHeaders <- the_headers ;;
    ret {| reqHeaders := Iteration.entries reqHeaders;
           resHeaders := Some resHeaders |}
  else
    ret {| reqHeaders := Iteration.entries reqHeaders; resHeaders := None |}.

End RouteA.

Module RouteB.

Definition GET (rt : Runtime) (VERCEL_URL : option string) : M Payload :=
  reqHeaders <- the_headers ;;
  if negb (Headers.has reqHeaders "x-initial-route") then
    update_headers (fun h => Headers.set h "x-initial-route" "b") ;;
    reqHeaders <- the_headers ;;
    res <- fetch_text rt ("https://" ++ template VERCEL_URL ++ "/api/a")
             {| init_method := None;
                init_headers := reqHeaders;
                init_redirect := None |} ;;
    let resHeaders := Iteration.entries (Response.headers res) in
    reqHeaders <- the_headers ;;
    ret {| reqHeaders := Iteration.entries reqHeaders;
           resHeaders := Some resHeaders |}
  else
    ret {| reqHeaders := Iteration.entries reqHeaders; resHeaders := None |}.

End RouteB.

(** A store for a route: the headers of its request. *)
Definition arriving (h : Headers.t) : Store :=
  {| forwarded := h; base := Response.mk 200 [] ""; journal := [] |}.

Module Echo.

Definition deployment : option string := Some "example.vercel.app".

Definition browser : Headers.t :=
  [("accept", "*/*"); ("cookie", "a=1"); ("accept", "text/html")].

Definition upstream_of_b : Response.t :=
  Response.mk 200 [("content-type", "application/json")] "{}".

Definition world : Runtime :=
  {| after_scheme := Demo.hierarchical;
     random_x100 := 0;
     upstream := fun _ _ => Some upstream_of_b;
     expires_at := fun _ => "" |}.

End Echo.

(** ** Text encodings used by the middleware *)

Module Text.

Definition quote : string := String (ascii_of_nat 34) "".

Definition backslash : string := String (ascii_of_nat 92) "".

Definition hex_digit (upper : bool) (n : nat) : ascii :=
  nth n (list_ascii_of_string
           (if upper then "0123456789ABCDEF" else "0123456789abcdef"))
      "0"%char.

Definition hex2 (upper : bool) (n : nat) : string :=
  String (hex_digit upper (n / 16)) (String (hex_digit upper (n mod 16)) "").

(** [JSON.stringify] of a string. *)
Definition json_char (c : ascii) : string :=
  let n := nat_of_ascii c in
  if (n =? 34)%nat then backslash ++ quote
  else if (n =? 92)%nat then backslash ++ backslash
  else if (n =? 8)%nat then backslash ++ "b"
  else if (n =? 9)%nat then backslash ++ "t"
  else if (n =? 10)%nat then backslash ++ "n"
  else if (n =? 12)%nat then backslash ++ "f"
  else if (n =? 13)%nat then backslash ++ "r"
  else if (n <? 32)%nat then backslash ++ "u00" ++ hex2 false n
  else String c "".

Fixpoint json_escape (s : string) : string :=
  match s with
  | EmptyString => EmptyString
  | String c t => json_char c ++ json_escape t
  end.

Definition json_string (s : string) : string := quote ++ json_escape s ++ quote.

(** [JSON.stringify] of an object whose values are strings. *)
Definition json_object (fields : list (string * string)) : string :=
  "{" ++ String.concat ","
           (map (fun f => json_string (fst f) ++ ":" ++ json_string (snd f))
                fields)
      ++ "}".

(** [btoa] *)
Definition b64_char (n : nat) : ascii :=
  nth n (list_ascii_of_string
           "ABCDEFGHIJKLMNOPQRSTUVWXYZabcdefghijklmnopqrstuvwxyz0123456789+/")
      "A"%char.

Fixpoint b64 (bytes : list nat) : list ascii :=
  match bytes with
  | a :: b :: c :: rest =>
      b64_char (a / 4) :: b64_char ((a mod 4) * 16 + b / 16)
        :: b64_char ((b mod 16) * 4 + c / 64) :: b64_char (c mod 64)
        :: b64 rest
  | [a; b] =>
      [b64_char (a / 4); b64_char ((a mod 4) * 16 + b / 16);
       b64_char ((b mod 16) * 4); "="%char]
  | [a] => [b64_char (a / 4); b64_char ((a mod 4) * 16); "="%char; "="%char]
  | [] => []
  end.

Definition btoa (s : string) : string :=
  string_of_list_ascii (b64 (map nat_of_ascii (list_ascii_of_string s))).

(** [encodeURIComponent] on the bytes of a string. *)
Definition is_unreserved (c : ascii) : bool :=
  URL.is_alpha c || URL.is_digit c
  || existsb (Ascii.eqb c) (list_ascii_of_string "-_.!~*'()").

Fixpoint encodeURIComponent (s : string) : string :=
  match s with
  | EmptyString => EmptyString
  | String c t =>
      (if is_unreserved c then String c ""
       else "%" ++ hex2 true (nat_of_ascii c))
        ++ encodeURIComponent t
  end.

(** [s.replace(/ /g, '+')] *)
Fixpoint spaces_to_plus (s : string) : string :=
  match s with
  | EmptyString => EmptyString
  | String c t =>
      String (if Ascii.eqb c " " then "+"%char else c) (spaces_to_plus t)
  end.

End Text.

(** ** [middleware]

    What the middleware takes from the framework and the clock:
    - [now], [now_token]: [Date.now()] at its two calls;
    - [device_type], [isBot]: the fields of [userAgent(request)] it reads;
    - [searchParams_get], [searchParams_text]: [url.searchParams.get(name)]
      and the text of [url.searchParams];
    - [next]: [NextResponse.next({ request: { headers } })]. *)

Record Framework := {
  now : Z;
  now_token : Z;
  device_type : NextRequest.t -> option string;
  isBot : NextRequest.t -> bool;
  searchParams_get : URL.t -> string -> option string;
  searchParams_text : URL.t -> string;
  next : Headers.t -> Response.t
}.

(** [response.cookies.set(name, value, { maxAge })] on a response. *)
Definition cookies_set (rt : Runtime) (r : Response.t)
    (name value : string) (maxAge : Z) : Response.t :=
  Response.mk (Response.status r)
    (ResponseCookies.set (expires_at rt maxAge) (Response.headers r)
       name value maxAge)
    (Response.body r).

(** [response.cookies.set(name, value)]: a cookie without a lifetime. *)
Definition cookies_set_session (r : Response.t) (name value : string)
    : Response.t :=
  Response.mk (Response.status r)
    (ResponseCookies.write_back
       (ResponseCookies.jar_set (ResponseCookies.jar_of (Response.headers r))
          name (name ++ "=" ++ Text.encodeURIComponent value ++ "; Path=/"))
       (Response.headers r))
    (Response.body r).

Definition text_of (e : Exn) : string :=
  match e with
  | TypeError message => "TypeError: " ++ message
  end.

Definition rcDomain : string := "rc-00301507.vercel-support.app".

Section Middleware.

Variable rt : Runtime.
Variable fw : Framework.

Definition uuid_of : string := Js.show (now fw).

(** Lines 7 to 53: the headers handed on to the page and to the proxy,
    which start as a copy of the headers of the request. *)
Definition forwarded_headers (request : NextRequest.t) : Headers.t :=
  let headers := NextRequest.headers request in
  let isMobile :=
    if Js.strict_eq (device_type fw request) "mobile" then "1" else "0" in
  let authToken := NextRequest.cookie request "authToken" in
  let url := NextRequest.nextUrl request in
  let lang := "en" in
  let uuid := uuid_of in
  let headers :=
    if negb (Js.truthy (Headers.get (NextRequest.headers request)
                          "x-deployment-override"))
    then Headers.set headers "nextLocation"
           (Text.json_object
              [("ip", Js.or_else (Headers.get headers "x-real-ip") "");
               ("country",
                Js.or_else (Headers.get headers "x-vercel-ip-country") "");
               ("region",
                Js.or_else (Headers.get headers "x-vercel-ip-country-region") "");
               ("city", Js.or_else (Headers.get headers "x-vercel-ip-city") "");
               ("latitude",
                Js.or_else (Headers.get headers "x-vercel-ip-latitude") "");
               ("longitude",
                Js.or_else (Headers.get headers "x-vercel-ip-longitude") "")])
    else headers in
  let headers := Headers.set headers "ser_uuid" uuid in
  let headers := Headers.set headers "pathname" (URL.pathname url) in
  let headers := Headers.set headers "params" (searchParams_text fw url) in
  let headers := Headers.set headers "isMobile" isMobile in
  let headers := Headers.set headers "isBot"
                   (if isBot fw request then "true" else "false") in
  match authToken with
  | Some _ => headers
  | None =>
      let headers := Headers.set headers "authToken"
                       (Text.btoa (Js.show (now_token fw))) in
      Headers.set headers "lang" lang
  end.

(** Lines 42 to 71: the response the middleware builds. *)
Definition base_response (request : NextRequest.t) : Response.t :=
  let authToken := NextRequest.cookie request "authToken" in
  let uuidCookie := NextRequest.cookie request "ser_uuid" in
  let cpn := searchParams_get fw (NextRequest.nextUrl request) "cpn" in
  let uuid := uuid_of in
  let token := option_map Text.spaces_to_plus authToken in
  let response := next fw (forwarded_headers request) in
  let response := cookies_set rt response "debug-uuid" uuid 3000 in
  let response :=
    if match authToken with None => true | Some _ => false end
       && Js.truthy token
    then cookies_set rt response "authToken" (Js.or_else token "") 3000
    else response in
  let response :=
    match uuidCookie with
    | None => cookies_set rt response "ser_uuid" uuid 3000
    | Some _ => response
    end in
  let response :=
    if Js.truthy cpn
    then cookies_set_session response "cpn" (Js.or_else cpn "")
    else response in
  Response.append response "Access-Control-Allow-Origin"
    "https://00301507-blue-green-env-test.preview.vercel-support.app".

(** The objects and the trace at the call of [handleDeployment]. *)
Definition handed_over (request : NextRequest.t) : Store :=
  {| forwarded := forwarded_headers request;
     base := base_response request;
     journal := [Console Log (Msg "req headers")] |}.

(** The middleware returns a response, or [undefined] after an error. *)
Definition middleware (request : NextRequest.t) : option Returned * Store :=
  match handleDeployment rt request uuid_of
          "nectarsleep-production-rc-configuration" rcDomain
          (handed_over request) with
  | (inr response, st) => (Some response, st)
  | (inl e, st) =>
      (None,
       logged st [Console Error (Msg ("middleware error: " ++ text_of e))])
  end.

End Middleware.

Module Visit.

Definition framework : Framework :=
  {| now := 1762164000000;
     now_token := 1762164000001;
     device_type := fun _ => Some "mobile";
     isBot := fun _ => false;
     searchParams_get :=
       fun u name =>
         if (URL.search u =? "?cpn=spring%20sale") && (name =? "cpn")
         then Some "spring sale" else None;
     searchParams_text :=
       fun u => if URL.search u =? "?cpn=spring%20sale"
                then "cpn=spring+sale" else "";
     next := fun _ => Response.mk 200 [("x-middleware-next", "1")] "" |}.

Definition first_visit : NextRequest.t :=
  NextRequest.mk "GET" (Demo.page "/" "?cpn=spring%20sale")
    [("accept", "text/html"); ("user-agent", "Mozilla/5.0");
     ("x-real-ip", "203.0.113.7"); ("x-vercel-ip-country", "DE")]
    [].

Definition returning : NextRequest.t :=
  NextRequest.mk "GET" (Demo.page "/release-candidate" "")
    [("accept", "text/html"); ("user-agent", "Mozilla/5.0")]
    [("authToken", "abc def"); ("ser_uuid", "1700000000000")].

Definition monitor : NextRequest.t :=
  NextRequest.mk "GET" (Demo.page "/" "")
    [("accept", "text/html"); ("user-agent", "Vercel Edge Functions")]
    [].

End Visit.

(** The outcome of a route that sent its request on: the answer lists the
    headers of the request, the mark among them, and the headers of the
    response; the request has been marked in place; one request went out. *)
Definition sent_on (self : string) (h : Headers.t) (u : URL.t)
    (res : Response.t) (st : Store) (out : (Exn + Payload) * Store) : Prop :=
  let marked := Headers.set h "x-initial-route" self in
  fst out
  = inr {| reqHeaders := Iteration.entries marked;
           resHeaders := Some (Iteration.entries (Response.headers res)) |}
  /\ In ("x-initial-route", self) (Iteration.entries marked)
  /\ forwarded (snd out) = marked
  /\ since st (snd out)
     = [Fetch u {| init_method := None; init_headers := marked;
                   init_redirect := None |}].

(** The names of the headers that the middleware sets. *)
Definition enriched (name : string) : bool :=
  existsb (String.eqb (Js.lower name))
    ["nextlocation"; "ser_uuid"; "pathname"; "params"; "ismobile"; "isbot";
     "authtoken"; "lang"].


(** ** The cookie a client keeps

    Of a [Set-Cookie] line a client stores the name, up to the first [=],
    and the value, from there to the first [;], and sends the pair back. *)





(** ** Host names

    A host name as a deployment is known by: labels of lower-case letters,
    digits and single hyphens, separated by dots, each starting with a
    letter or a digit and the last one with a letter.  Such a name is
    neither an address in numbers nor an encoded label, has no port and no
    white space, and both the [hostname] setter of a URL and [Headers.set]
    store it as it is written. *)

Definition lower_letter (c : ascii) : bool :=
  let n := nat_of_ascii c in ((97 <=? n) && (n <=? 122))%nat.

Fixpoint labels_from (label s : string) : list string :=
  match s with
  | EmptyString => [label]
  | String c t =>
      if Ascii.eqb c "." then label :: labels_from "" t
      else labels_from (label ++ String c "") t
  end.

Definition labels (s : string) : list string := labels_from "" s.

Definition starts_with (p : ascii -> bool) (s : string) : bool :=
  match s with
  | String c _ => p c
  | EmptyString => false
  end.

Definition label_ok (l : string) : bool :=
  starts_with (fun c => lower_letter c || URL.is_digit c) l
  && forallb (fun c => lower_letter c || URL.is_digit c || Ascii.eqb c "-")
       (list_ascii_of_string l)
  && negb (Js.includes "--" l).

Definition host_name (s : string) : bool :=
  forallb label_ok (labels s)
  && starts_with lower_letter (last (labels s) "").


(** * Properties *)

(** ** Strings and numbers *)

Lemma lower_ascii_idem (c : ascii) :
  Js.lower_ascii (Js.lower_ascii c) = Js.lower_ascii c.
Proof. destruct c as [[] [] [] [] [] [] [] []]; reflexivity. Qed.

Lemma lower_idem (s : string) : Js.lower (Js.lower s) = Js.lower s.
Proof.
  induction s as [|c s IH]; simpl; [reflexivity|].
  now rewrite lower_ascii_idem, IH.
Qed.

Lemma lower_app (a b : string) :
  Js.lower (a ++ b) = Js.lower a ++ Js.lower b.
Proof. induction a as [|c a IH]; simpl; [reflexivity|now rewrite IH]. Qed.

Lemma prefix_app (n rest : string) : String.prefix n (n ++ rest) = true.
Proof.
  induction n as [|c n IH]; simpl.
  - now destruct rest.
  - destruct (ascii_dec c c) as [_|ne]; [exact IH|now destruct ne].
Qed.

Lemma includes_prefix (n hay : string) :
  String.prefix n hay = true -> Js.includes n hay = true.
Proof. intros H. destruct hay; cbn [Js.includes]; now rewrite H. Qed.

Lemma includes_app (n pre post : string) :
  Js.includes n (pre ++ n ++ post) = true.
Proof.
  induction pre as [|c pre IH].
  - change (Js.includes n (n ++ post) = true).
    apply includes_prefix, prefix_app.
  - change (Js.includes n (String c (pre ++ n ++ post)) = true).
    cbn [Js.includes]. rewrite IH. now destruct (String.prefix n _).
Qed.

Lemma Qltb_lt (x y : Q) : Qltb x y = true <-> (x < y)%Q.
Proof. unfold Qltb, Qlt. apply Z.ltb_lt. Qed.

Lemma Qltb_ge (x y : Q) : Qltb x y = false <-> (y <= x)%Q.
Proof. unfold Qltb, Qle. apply Z.ltb_ge. Qed.

(** ** Header lists *)

Lemma named_lower (n v : string) : Headers.named n (Js.lower n, v) = true.
Proof. unfold Headers.named; simpl. rewrite lower_idem. apply String.eqb_refl. Qed.

Lemma named_other (m n v : string) :
  Js.lower m <> Js.lower n -> Headers.named m (Js.lower n, v) = false.
Proof.
  intros ne. unfold Headers.named; simpl. rewrite lower_idem.
  apply String.eqb_neq. congruence.
Qed.

Lemma named_trans (m n : string) (e : string * string) :
  Headers.named n e = true -> Js.lower m <> Js.lower n ->
  Headers.named m e = false.
Proof.
  unfold Headers.named. intros H ne.
  apply String.eqb_eq in H. apply String.eqb_neq. congruence.
Qed.

Lemma values_app (h k : Headers.t) (n : string) :
  Headers.values (h ++ k)%list n
  = (Headers.values h n ++ Headers.values k n)%list.
Proof. unfold Headers.values. now rewrite filter_app, map_app. Qed.

Lemma values_delete_same (h : Headers.t) (n : string) :
  Headers.values (Headers.delete h n) n = [].
Proof.
  unfold Headers.values, Headers.delete.
  induction h as [|e h IH]; simpl; [reflexivity|].
  destruct (Headers.named n e) eqn:E; simpl; [exact IH|].
  now rewrite E.
Qed.

Lemma values_delete_other (h : Headers.t) (m n : string) :
  Js.lower m <> Js.lower n ->
  Headers.values (Headers.delete h n) m = Headers.values h m.
Proof.
  intros ne. unfold Headers.values, Headers.delete.
  induction h as [|e h IH]; simpl; [reflexivity|].
  destruct (Headers.named n e) eqn:E; simpl.
  - rewrite (named_trans m n e E ne). exact IH.
  - destruct (Headers.named m e); simpl; now rewrite IH.
Qed.

Lemma values_set_same (h : Headers.t) (n v : string) :
  Headers.values (Headers.set h n v) n = [v].
Proof.
  induction h as [|e h IH]; simpl.
  - unfold Headers.values; simpl. now rewrite named_lower.
  - destruct (Headers.named n e) eqn:E.
    + change (Headers.values ((Js.lower n, v) :: Headers.delete h n) n = [v]).
      unfold Headers.values at 1; simpl. rewrite named_lower; simpl.
      fold (Headers.values (Headers.delete h n) n).
      now rewrite values_delete_same.
    + unfold Headers.values in *; simpl. now rewrite E.
Qed.

Lemma values_set_other (h : Headers.t) (m n v : string) :
  Js.lower m <> Js.lower n ->
  Headers.values (Headers.set h n v) m = Headers.values h m.
Proof.
  intros ne. induction h as [|e h IH]; simpl.
  - unfold Headers.values; simpl. now rewrite (named_other m n v ne).
  - destruct (Headers.named n e) eqn:E.
    + unfold Headers.values at 1 2; simpl.
      rewrite (named_other m n v ne), (named_trans m n e E ne).
      fold (Headers.values (Headers.delete h n) m).
      fold (Headers.values h m).
      now apply values_delete_other.
    + unfold Headers.values in *; simpl.
      destruct (Headers.named m e); simpl; now rewrite IH.
Qed.

Lemma delete_delete (h : Headers.t) (n : string) :
  Headers.delete (Headers.delete h n) n = Headers.delete h n.
Proof.
  unfold Headers.delete. induction h as [|e h IH]; simpl; [reflexivity|].
  destruct (Headers.named n e) eqn:E; simpl; [exact IH|].
  now rewrite E, IH.
Qed.

Lemma delete_cons (e : string * string) (h : Headers.t) (n : string) :
  Headers.delete (e :: h) n
  = if Headers.named n e then Headers.delete h n else e :: Headers.delete h n.
Proof. unfold Headers.delete; simpl. now destruct (Headers.named n e). Qed.

(** [set] leaves the entries of every other name as they are, in order. *)
Lemma delete_set (h : Headers.t) (n v : string) :
  Headers.delete (Headers.set h n v) n = Headers.delete h n.
Proof.
  induction h as [|e h IH]; cbn [Headers.set].
  - now rewrite delete_cons, named_lower.
  - destruct (Headers.named n e) eqn:E.
    + now rewrite !delete_cons, named_lower, E, delete_delete.
    + now rewrite !delete_cons, E, IH.
Qed.

Lemma get_set_same (h : Headers.t) (n v : string) :
  Headers.get (Headers.set h n v) n = Some v.
Proof. unfold Headers.get. now rewrite values_set_same. Qed.

Lemma get_set_other (h : Headers.t) (m n v : string) :
  Js.lower m <> Js.lower n ->
  Headers.get (Headers.set h n v) m = Headers.get h m.
Proof. intros ne. unfold Headers.get. now rewrite values_set_other. Qed.

Lemma has_values (h : Headers.t) (n : string) :
  Headers.has h n = negb (match Headers.values h n with [] => true | _ => false end).
Proof.
  unfold Headers.has, Headers.values.
  induction h as [|e h IH]; simpl; [reflexivity|].
  destruct (Headers.named n e); simpl; [reflexivity|exact IH].
Qed.

Lemma has_false_get (h : Headers.t) (n : string) :
  Headers.has h n = false <-> Headers.get h n = None.
Proof.
  rewrite has_values. unfold Headers.get.
  destruct (Headers.values h n); simpl; split; congruence.
Qed.

Lemma getSetCookie_lines (h : Headers.t) (lines : list string) :
  Headers.getSetCookie (h ++ map (fun line => ("set-cookie", line)) lines)%list
  = (Headers.getSetCookie h ++ lines)%list.
Proof.
  unfold Headers.getSetCookie. rewrite values_app. f_equal.
  unfold Headers.values.
  induction lines as [|l lines IH]; simpl; [reflexivity|].
  now rewrite IH.
Qed.


(** ** The runs of the proxy and of the pipeline *)

(** Runs the console calls in front of a goal and reassociates the trace. *)
Ltac now_logged :=
  unfold bind, console, emit, update_response, ret, logged, production_store,
    pinned_to_production, skip_events, sticky_false_events, loop_guard_events,
    forced_path_events, sticky_true_events, split_rc_events,
    split_production_events;
  cbn [forwarded base journal fst snd];
  rewrite <- ?app_assoc; reflexivity.

Lemma logged_logged (st : Store) (a b : list Event) :
  logged (logged st a) b = logged st (a ++ b).
Proof. unfold logged; simpl. now rewrite app_assoc. Qed.

Lemma proxied_logged (st : Store) (target : string) (a b : list Event) :
  proxied (logged st a) target b = proxied st target (a ++ b).
Proof. unfold proxied, logged; simpl. now rewrite app_assoc. Qed.

Lemma getNextResponse_run (rt : Runtime) (req : NextRequest.t)
    (domain uuid : string) (st : Store) :
  getNextResponse rt req domain uuid st =
  match formatDeploymentUrl rt domain with
  | inl e => (inl e, st)
  | inr target =>
      match upstream rt (upstream_url req target) (upstream_init st target) with
      | None =>
          (inl (TypeError "fetch failed"),
           proxied st target
             [Fetch (upstream_url req target) (upstream_init st target)])
      | Some r => (inr r, proxied st target (proxy_events req st target r))
      end
  end.
Proof.
  unfold getNextResponse, bind, lift.
  destruct (formatDeploymentUrl rt domain) as [e|target]; [reflexivity|].
  cbn. unfold upstream_url, upstream_init.
  destruct (upstream rt _ _) as [r|]; cbn; [|reflexivity].
  unfold proxied, proxy_events, status_events, upstream_url, upstream_init.
  destruct (400 <=? Response.status r)%Z; cbn;
    repeat rewrite <- app_assoc; reflexivity.
Qed.

Lemma append_lines (items : list Js.Item) (r : Response.t) :
  fold_left (fun r value => Response.append r "set-cookie" (Js.toString value))
    items r
  = Response.mk (Response.status r)
      (Response.headers r
         ++ map (fun value => ("set-cookie", Js.toString value)) items)%list
      (Response.body r).
Proof.
  revert r. induction items as [|i items IH]; intros r; simpl.
  - rewrite app_nil_r. now destruct r.
  - rewrite IH. unfold Response.append, Headers.append; simpl.
    now rewrite <- app_assoc.
Qed.

Lemma fetchRCDeployment_run (rt : Runtime) (req : NextRequest.t)
    (uuid rcDomain : string) (st : Store) :
  fetchRCDeployment rt req uuid rcDomain st =
  match formatDeploymentUrl rt rcDomain with
  | inl e => (inl e, st)
  | inr target =>
      match upstream rt (upstream_url req target) (upstream_init st target) with
      | None =>
          (inl (TypeError "fetch failed"),
           proxied st target
             [Fetch (upstream_url req target) (upstream_init st target)])
      | Some r =>
          (inr (Fresh (merged r (base st))),
           proxied st target (proxy_events req st target r))
      end
  end.
Proof.
  unfold fetchRCDeployment, bind. rewrite getNextResponse_run.
  destruct (formatDeploymentUrl rt rcDomain) as [e|target]; [reflexivity|].
  destruct (upstream rt _ _) as [r|]; [|reflexivity].
  unfold the_response, ret; cbn [proxied base].
  rewrite append_lines. unfold merged.
  now rewrite map_app, map_map, (map_app _ (Headers.getSetCookie _)).
Qed.

Lemma handleDeployment_run (rt : Runtime) (request : NextRequest.t)
    (uuid config rcDomain : string) (st : Store) :
  handleDeployment rt request uuid config rcDomain st =
  match origin_of request st with
  | skipped => (inr Base, logged st skip_events)
  | sticky_false => (inr Base, logged st sticky_false_events)
  | loop_guard => (inr Base, logged st loop_guard_events)
  | forced_path =>
      fetchRCDeployment rt request uuid rcDomain (logged st forced_path_events)
  | sticky_true =>
      fetchRCDeployment rt request uuid rcDomain (logged st sticky_true_events)
  | random =>
      if Qltb (random_x100 rt) (90 # 1)
      then fetchRCDeployment rt request uuid rcDomain (logged st split_rc_events)
      else (inr Base, production_store rt st)
  end.
Proof.
  unfold handleDeployment, origin_of, request_URL, the_headers.
  unfold bind at 1 2. unfold ret at 1. cbn beta iota.
  destruct (shouldSkipBlueGreenDeployment _ _); [now_logged|].
  destruct (Js.strict_eq (NextRequest.cookie request "release_candidate") "false");
    [now_logged|].
  destruct (Js.truthy _); [now_logged|].
  destruct (URL.pathname _ =? "/release-candidate"); [now_logged|].
  destruct (Js.strict_eq (NextRequest.cookie request "release_candidate") "true");
    [now_logged|].
  unfold productionRcConfig, selectBlueGreenDeployment; cbn [trafficRcPercent].
  destruct (Qltb (random_x100 rt) (90 # 1)); now_logged.
Qed.

Lemma since_logged (st : Store) (evs : list Event) :
  since st (logged st evs) = evs.
Proof.
  unfold since, logged; simpl.
  rewrite skipn_app, skipn_all, Nat.sub_diag. reflexivity.
Qed.

Lemma since_proxied (st : Store) (target : string) (evs : list Event) :
  since st (proxied st target evs) = evs.
Proof.
  unfold since, proxied; simpl.
  rewrite skipn_app, skipn_all, Nat.sub_diag. reflexivity.
Qed.

Lemma origin_of_logged (request : NextRequest.t) (st : Store) (evs : list Event) :
  origin_of request (logged st evs) = origin_of request st.
Proof. reflexivity. Qed.

Lemma passes_through_logged (st : Store) (evs : list Event) :
  fetches evs = [] -> passes_through st (inr Base, logged st evs).
Proof. intros H. exists evs. split; [reflexivity|exact H]. Qed.

(** Past the loop guard only the three pass-through exits are left. *)
Lemma origin_of_marked (request : NextRequest.t) (st : Store) :
  Js.truthy (Headers.get (NextRequest.headers request) "x-deployment-override")
  = true ->
  origin_of request st = skipped \/ origin_of request st = sticky_false
  \/ origin_of request st = loop_guard.
Proof.
  intros H. unfold origin_of. rewrite H.
  destruct (shouldSkipBlueGreenDeployment _ _); [now left|].
  destruct (Js.strict_eq _ "false"); [right; now left|right; now right].
Qed.

Lemma pass_through_exits (rt : Runtime) (request : NextRequest.t)
    (uuid config rcDomain : string) (st : Store) :
  origin_of request st = skipped \/ origin_of request st = sticky_false
  \/ origin_of request st = loop_guard ->
  passes_through st (handleDeployment rt request uuid config rcDomain st).
Proof.
  intros H. rewrite handleDeployment_run.
  destruct H as [H|[H|H]]; rewrite H; now apply passes_through_logged.
Qed.

(** ** The loop guard *)

(** C1, as the code has it.  A request whose [x-deployment-override] header
    has a value that is not empty gets the caller's base response back, the
    very object, with nothing written to it or to the forwarded headers and
    no request sent upstream, whatever the draw, the target and the network
    are; and a second run on what the first one left does the same and
    returns the same response. *)
Theorem C1_marked_request_passes_through (rt : Runtime) (request : NextRequest.t)
    (uuid config rcDomain : string) (st : Store) :
  Js.truthy (Headers.get (NextRequest.headers request) "x-deployment-override")
  = true ->
  let out := handleDeployment rt request uuid config rcDomain st in
  passes_through st out
  /\ contents Base (snd out) = base st
  /\ forall (rt' : Runtime) (uuid' config' rcDomain' : string),
       let again :=
         handleDeployment rt' request uuid' config' rcDomain' (snd out) in
       passes_through (snd out) again
       /\ fst again = fst out
       /\ contents Base (snd again) = base st.
Proof.
  intros H out.
  assert (P : passes_through st out)
    by (apply pass_through_exits, origin_of_marked, H).
  destruct P as [evs [E F]]. subst out. rewrite E. cbn [fst snd].
  split; [exists evs; now split|]. split; [reflexivity|].
  intros rt' uuid' config' rcDomain'.
  assert (P : passes_through (logged st evs)
                (handleDeployment rt' request uuid' config' rcDomain'
                                  (logged st evs)))
    by (apply pass_through_exits; rewrite origin_of_logged;
        apply origin_of_marked, H).
  split; [exact P|]. destruct P as [evs' [E' _]]. rewrite E'.
  split; reflexivity.
Qed.

Lemma C1_marked_request_witness :
  Js.truthy (Headers.get (NextRequest.headers Demo.marked) "x-deployment-override")
  = true
  /\ passes_through (Demo.store Demo.marked) (Demo.run Demo.world Demo.marked).
Proof.
  split; [reflexivity|].
  exact (proj1 (C1_marked_request_passes_through Demo.world Demo.marked
                  "1762164000000" "nectarsleep-production-rc-configuration"
                  "rc.example.com" (Demo.store Demo.marked) eq_refl)).
Defined.

(** C1 as stated fails: a request that carries the header with an empty
    value is past the guard, and on the reserved path it is proxied and the
    sticky cookie is written. *)
Lemma C1_empty_marker_is_proxied :
  Headers.has (NextRequest.headers Demo.empty_marker) "x-deployment-override"
  = true
  /\ fetches (since (Demo.store Demo.empty_marker)
                (snd (Demo.run Demo.world Demo.empty_marker)))
     = [Fetch (upstream_url Demo.empty_marker "rc.example.com")
              (upstream_init (Demo.store Demo.empty_marker) "rc.example.com")]
  /\ fst (Demo.run Demo.world Demo.empty_marker)
     = inr (Fresh (merged Demo.rc_page (base (Demo.store Demo.empty_marker))))
  /\ ~ passes_through (Demo.store Demo.empty_marker)
         (Demo.run Demo.world Demo.empty_marker).
Proof.
  split; [reflexivity|]. split; [reflexivity|]. split; [reflexivity|].
  intros [evs [E _]]. apply (f_equal fst) in E.
  vm_compute in E. discriminate E.
Qed.

(** ** The traffic splitter *)

(** C2.  For a weight [w] between 0 and 100 and a draw [r] in [0, 100) the
    splitter selects the release candidate exactly when [r < w]; a draw
    equal to the weight selects production, weight 0 selects production
    and weight 100 the release candidate, for every draw. *)
Theorem C2_split_threshold (rt : Runtime) (w : Q) :
  (0 <= w)%Q -> (w <= 100)%Q ->
  (0 <= random_x100 rt)%Q -> (random_x100 rt < 100)%Q ->
  let choice := selectBlueGreenDeployment rt {| trafficRcPercent := w |} in
  (choice = rc <-> (random_x100 rt < w)%Q)
  /\ ((random_x100 rt == w)%Q -> choice = production)
  /\ ((w == 0)%Q -> choice = production)
  /\ ((w == 100)%Q -> choice = rc).
Proof.
  intros w0 w100 r0 r100 choice. subst choice.
  unfold selectBlueGreenDeployment; cbn [trafficRcPercent].
  destruct (Qltb (random_x100 rt) w) eqn:E.
  - apply Qltb_lt in E. repeat split; intros; try reflexivity; try assumption; lra.
  - apply Qltb_ge in E. repeat split; intros; try reflexivity; try discriminate; lra.
Qed.

Lemma C2_split_threshold_witness :
  (0 <= 90 # 1)%Q /\ (90 # 1 <= 100)%Q
  /\ (0 <= random_x100 Demo.world)%Q /\ (random_x100 Demo.world < 100)%Q
  /\ (selectBlueGreenDeployment Demo.world {| trafficRcPercent := 90 # 1 |} = rc
      <-> (random_x100 Demo.world < 90 # 1)%Q).
Proof.
  assert (a : (0 <= 90 # 1)%Q) by (unfold Qle; simpl; lia).
  assert (b : (90 # 1 <= 100)%Q) by (unfold Qle; simpl; lia).
  assert (c : (0 <= random_x100 Demo.world)%Q) by (unfold Qle; simpl; lia).
  assert (d : (random_x100 Demo.world < 100)%Q) by (unfold Qlt; simpl; lia).
  split; [exact a|]. split; [exact b|]. split; [exact c|]. split; [exact d|].
  exact (proj1 (C2_split_threshold Demo.world (90 # 1) a b c d)).
Defined.

(** ** The sticky decision *)

(** C3.  An eligible request with the cookie [release_candidate=false] is
    passed through: the base response comes back as it is, no request goes
    upstream and no cookie is written, on every path, the reserved one
    included. *)
Theorem C3_sticky_false_passes_through (rt : Runtime) (request : NextRequest.t)
    (uuid config rcDomain : string) (st : Store) :
  shouldSkipBlueGreenDeployment request
    (Js.or_else (Headers.get (forwarded st) "user-agent") "") = false ->
  NextRequest.cookie request "release_candidate" = Some "false" ->
  handleDeployment rt request uuid config rcDomain st
  = (inr Base, logged st sticky_false_events)
  /\ passes_through st (handleDeployment rt request uuid config rcDomain st).
Proof.
  intros eligible sticky.
  assert (O : origin_of request st = sticky_false).
  { unfold origin_of. now rewrite eligible, sticky. }
  split.
  - rewrite handleDeployment_run, O. reflexivity.
  - apply pass_through_exits. right. now left.
Qed.

Lemma C3_sticky_false_witness :
  shouldSkipBlueGreenDeployment Demo.pinned_away
    (Js.or_else (Headers.get (forwarded (Demo.store Demo.pinned_away)) "user-agent") "")
  = false
  /\ NextRequest.cookie Demo.pinned_away "release_candidate" = Some "false"
  /\ URL.pathname (NextRequest.nextUrl Demo.pinned_away) = "/release-candidate"
  /\ Demo.run Demo.world Demo.pinned_away
     = (inr Base, logged (Demo.store Demo.pinned_away) sticky_false_events).
Proof.
  split; [reflexivity|]. split; [reflexivity|]. split; [reflexivity|].
  exact (proj1 (C3_sticky_false_passes_through Demo.world Demo.pinned_away
                  "1762164000000" "nectarsleep-production-rc-configuration"
                  "rc.example.com" (Demo.store Demo.pinned_away)
                  eq_refl eq_refl)).
Defined.

(** ** The proxy fetcher *)

Lemma fetches_app (a b : list Event) :
  fetches (a ++ b) = (fetches a ++ fetches b)%list.
Proof. apply filter_app. Qed.

Lemma fetches_status_events (r : Response.t) : fetches (status_events r) = [].
Proof. unfold status_events. now destruct (400 <=? Response.status r)%Z. Qed.

Lemma fetches_proxy_events (req : NextRequest.t) (st : Store)
    (target : string) (r : Response.t) :
  fetches (proxy_events req st target r)
  = [Fetch (upstream_url req target) (upstream_init st target)].
Proof.
  unfold proxy_events. cbn [fetches filter is_fetch].
  fold (fetches (status_events r)). now rewrite fetches_status_events.
Qed.

(** What a run of the merger after some console calls sends upstream:
    nothing when the target is rejected, one request otherwise, also when
    the transport then fails. *)
Lemma fetchRCDeployment_fetches (rt : Runtime) (req : NextRequest.t)
    (uuid rcDomain : string) (st : Store) (pre : list Event) :
  fetches pre = [] ->
  match formatDeploymentUrl rt rcDomain with
  | inl e =>
      fetches (since st (snd (fetchRCDeployment rt req uuid rcDomain
                                (logged st pre)))) = []
  | inr target =>
      fetches (since st (snd (fetchRCDeployment rt req uuid rcDomain
                                (logged st pre))))
      = [Fetch (upstream_url req target) (upstream_init st target)]
  end.
Proof.
  intros P. rewrite fetchRCDeployment_run.
  destruct (formatDeploymentUrl rt rcDomain) as [e|target]; cbn [snd].
  - now rewrite since_logged.
  - change (upstream_init (logged st pre) target) with (upstream_init st target).
    destruct (upstream rt _ _) as [r|]; cbn [snd];
      rewrite proxied_logged, since_proxied, fetches_app, P; cbn [app].
    + change (proxy_events req (logged st pre) target r)
        with (proxy_events req st target r).
      apply fetches_proxy_events.
    + reflexivity.
Qed.







(** ** The sticky cookie *)

Lemma append_entries (jar : list (string * string)) (h : Headers.t) :
  fold_left (fun acc e => Headers.append acc "set-cookie" (snd e)) jar h
  = (h ++ map (fun line => ("set-cookie", line)) (map snd jar))%list.
Proof.
  revert h. induction jar as [|e jar IH]; intros h; simpl.
  - now rewrite app_nil_r.
  - rewrite IH. unfold Headers.append; simpl. now rewrite <- app_assoc.
Qed.

Lemma getSetCookie_write_back (jar : list (string * string)) (h : Headers.t) :
  Headers.getSetCookie (ResponseCookies.write_back jar h) = map snd jar.
Proof.
  unfold ResponseCookies.write_back. rewrite append_entries, getSetCookie_lines.
  unfold Headers.getSetCookie. now rewrite values_delete_same.
Qed.

Lemma jar_set_line (jar : list (string * string)) (name line : string) :
  In line (map snd (ResponseCookies.jar_set jar name line)).
Proof.
  induction jar as [|e jar IH]; simpl; [now left|].
  destruct (fst e =? name); simpl; [now left|now right].
Qed.

Lemma production_line_lifetime (rt : Runtime) :
  production_line rt
  = "release_candidate=false; Path=/; Expires=" ++ expires_at rt 86400
      ++ "; Max-Age=86400".
Proof. reflexivity. Qed.

Lemma pinned_has_production_line (rt : Runtime) (r : Response.t) :
  In (production_line rt)
     (Headers.getSetCookie (Response.headers (pinned_to_production rt r))).
Proof.
  unfold pinned_to_production, ResponseCookies.set; cbn [Response.headers].
  rewrite getSetCookie_write_back. apply jar_set_line.
Qed.

Lemma merged_lines (up b : Response.t) :
  Headers.getSetCookie (Response.headers (merged up b))
  = (Headers.getSetCookie (Response.headers up)
       ++ Headers.getSetCookie (Response.headers b)
       ++ ["release_candidate=true"])%list.
Proof. unfold merged; cbn [Response.headers]. apply getSetCookie_lines. Qed.

Lemma proxy_writes_rc_cookie (rt : Runtime) (req : NextRequest.t)
    (uuid rcDomain : string) (st : Store) (pre : list Event) :
  writes_rc_cookie st (fetchRCDeployment rt req uuid rcDomain (logged st pre)).
Proof.
  rewrite fetchRCDeployment_run. unfold writes_rc_cookie, outgoing.
  destruct (formatDeploymentUrl rt rcDomain) as [e|target]; cbn [fst snd].
  - split; [reflexivity|discriminate].
  - destruct (upstream rt _ _) as [up|]; cbn [fst snd].
    + split; [reflexivity|]. intros r R. injection R as <-.
      exists up. split; [reflexivity|]. apply merged_lines.
    + split; [reflexivity|discriminate].
Qed.

(** C5, at a request that the sticky cookie sends to the release candidate:
    the line that the merger appends is [release_candidate=true] and
    nothing else, with neither [Max-Age] nor [Expires], whereas the line
    that pins a client to production carries [Max-Age=86400]. *)
Lemma C5_sticky_true_has_no_lifetime :
  MAX_AGE = 86400%Z
  /\ option_map (fun r => Headers.getSetCookie (Response.headers r))
       (outgoing (Demo.run Demo.world Demo.pinned_to_rc))
     = Some ["b=2"; "a=1"; "release_candidate=true"]
  /\ Js.includes "Max-Age" "release_candidate=true" = false
  /\ Js.includes "Expires" "release_candidate=true" = false
  /\ option_map (fun r => Headers.getSetCookie (Response.headers r))
       (outgoing (Demo.run Demo.world_high Demo.plain))
     = Some ["a=1";
             "release_candidate=false; Path=/; Expires=Wed, 04 Nov 2026 10:00:00 GMT; Max-Age=86400"].
Proof. repeat split; reflexivity. Qed.

(** C6 as stated fails: a request without cookies on the reserved path has
    origin [forced_path], and the response it gets carries
    [release_candidate=true]. *)
Lemma C6_forced_path_writes_cookie :
  NextRequest.cookies Demo.forced = []
  /\ origin_of Demo.forced (Demo.store Demo.forced) = forced_path
  /\ option_map (fun r => Headers.getSetCookie (Response.headers r))
       (outgoing (Demo.run Demo.world Demo.forced))
     = Some ["b=2"; "a=1"; "release_candidate=true"].
Proof. repeat split; reflexivity. Qed.

(** C6, as the code has it.  A [release_candidate] cookie is written exactly
    on the runs that are not passed through: with origin [forced_path],
    [sticky_true] or [random] and the release candidate drawn, a response
    that comes back carries [release_candidate=true] after the cookies of
    the upstream and of the base response; with origin [random] and
    production drawn, the base response gets the production line; with
    origin [skipped], [sticky_false] or [loop_guard] the base response
    comes back as it was. *)
Theorem C6_sticky_cookie_by_origin (rt : Runtime) (request : NextRequest.t)
    (uuid config rcDomain : string) (st : Store) :
  match origin_of request st with
  | skipped | sticky_false | loop_guard =>
      passes_through st (handleDeployment rt request uuid config rcDomain st)
  | forced_path | sticky_true =>
      writes_rc_cookie st (handleDeployment rt request uuid config rcDomain st)
  | random =>
      if Qltb (random_x100 rt) (90 # 1)
      then writes_rc_cookie st
             (handleDeployment rt request uuid config rcDomain st)
      else writes_production_cookie rt st
             (handleDeployment rt request uuid config rcDomain st)
  end.
Proof.
  rewrite handleDeployment_run.
  destruct (origin_of request st);
    try (now apply passes_through_logged);
    try apply proxy_writes_rc_cookie.
  destruct (Qltb (random_x100 rt) (90 # 1)).
  - apply proxy_writes_rc_cookie.
  - unfold writes_production_cookie, production_store; cbn [fst snd base forwarded].
    repeat split. apply pinned_has_production_line.
Qed.

(** ** The target resolver *)

Lemma or_else_string (s : string) : Js.or_else (Some s) "" = s.
Proof.
  unfold Js.or_else. destruct (s =? "") eqn:E; [|reflexivity].
  apply String.eqb_eq in E. now subst.
Qed.

(** An identifier that starts with [http] but has no scheme makes the
    resolver throw, whatever the runtime does past the scheme. *)
Lemma formatDeploymentUrl_without_scheme (rt : Runtime) (s : string) :
  String.prefix "http" s = true ->
  URL.scan_scheme (URL.strip s) = None ->
  formatDeploymentUrl rt s = inl (TypeError "Invalid URL").
Proof.
  intros P N. unfold formatDeploymentUrl, new_URL, URL.parse.
  now rewrite or_else_string, P, N.
Qed.

(** C7 as stated fails: [httpfoo] begins with [http] and is not a URL, and
    the resolver throws on it instead of returning it. *)
Lemma C7_resolver_throws :
  String.prefix "http" "httpfoo" = true
  /\ formatDeploymentUrl Demo.world "httpfoo" = inl (TypeError "Invalid URL")
  /\ formatDeploymentUrl Demo.world "httpfoo" <> inr "httpfoo".
Proof. split; [reflexivity|]. split; [reflexivity|discriminate]. Qed.

(** C7, as the code has it.  An identifier that does not begin with [http]
    is returned unchanged; one that begins with [http] and parses as a URL
    gives the host name of that URL; one that begins with [http] and does
    not parse makes the resolver throw the [TypeError] of the [URL]
    constructor. *)
Theorem C7_resolver_cases (rt : Runtime) (identifier : string) :
  (String.prefix "http" identifier = false ->
   formatDeploymentUrl rt identifier = inr identifier)
  /\ (String.prefix "http" identifier = true ->
      forall u : URL.t,
        URL.parse (after_scheme rt) identifier = Some u ->
        formatDeploymentUrl rt identifier = inr (URL.hostname u))
  /\ (String.prefix "http" identifier = true ->
      URL.parse (after_scheme rt) identifier = None ->
      formatDeploymentUrl rt identifier = inl (TypeError "Invalid URL")).
Proof.
  unfold formatDeploymentUrl, new_URL. rewrite or_else_string.
  repeat split.
  - now intros ->.
  - now intros -> u ->.
  - now intros -> ->.
Qed.

Lemma C7_resolver_cases_witness :
  String.prefix "http" "https://rc.example.com/x?y" = true
  /\ String.prefix "http" "rc.example.com" = false
  /\ formatDeploymentUrl Demo.world "https://rc.example.com/x?y"
     = inr "rc.example.com"
  /\ formatDeploymentUrl Demo.world "rc.example.com" = inr "rc.example.com".
Proof.
  split; [reflexivity|]. split; [reflexivity|]. split.
  - exact (proj1 (proj2 (C7_resolver_cases Demo.world
                           "https://rc.example.com/x?y"))
             eq_refl
             (URL.mk "https:" "" "" "rc.example.com" "" "/x" "?y" "")
             eq_refl).
  - exact (proj1 (C7_resolver_cases Demo.world "rc.example.com") eq_refl).
Defined.

(** ** The response merger *)



(** ** The classifier *)

Lemma isDocumentRequest_is_document (request : NextRequest.t) :
  Js.not (isDocumentRequest request) = negb (is_document request).
Proof.
  unfold isDocumentRequest, is_document.
  destruct (Headers.has (NextRequest.headers request) "sec-fetch-dest") eqn:H.
  - destruct (Headers.get (NextRequest.headers request) "sec-fetch-dest")
      as [dest|] eqn:G.
    + cbn. now destruct (dest =? "document").
    + apply has_false_get in G. congruence.
  - apply has_false_get in H. rewrite H.
    destruct (Headers.get (NextRequest.headers request) "accept") as [a|]; cbn;
      [now destruct (Js.includes "text/html" a)|reflexivity].
Qed.

Lemma vercel_anywhere (userAgent pre mid post : string) :
  userAgent = pre ++ mid ++ post -> Js.lower mid = "vercel" ->
  isVercelUserAgent userAgent = true.
Proof.
  intros -> L. unfold isVercelUserAgent.
  rewrite !lower_app, L. apply includes_app.
Qed.

(** C9.  A request is passed through, the base response returned as it is,
    nothing sent upstream and no cookie written, when its method is not
    GET, or it is not a document request ([Sec-Fetch-Dest] equal to
    [document] when the request has that header, [Accept] containing
    [text/html] otherwise), or its user agent contains [vercel] in any
    mix of upper and lower case. *)
Theorem C9_ineligible_passes_through (rt : Runtime) (request : NextRequest.t)
    (uuid config rcDomain : string) (st : Store) :
  NextRequest.method request <> "GET"
  \/ is_document request = false
  \/ (exists pre mid post : string,
        Js.or_else (Headers.get (forwarded st) "user-agent") ""
        = pre ++ mid ++ post
        /\ Js.lower mid = "vercel") ->
  handleDeployment rt request uuid config rcDomain st
  = (inr Base, logged st skip_events)
  /\ passes_through st (handleDeployment rt request uuid config rcDomain st).
Proof.
  intros H.
  assert (O : origin_of request st = skipped).
  { unfold origin_of.
    replace (shouldSkipBlueGreenDeployment _ _) with true; [reflexivity|].
    symmetry. unfold shouldSkipBlueGreenDeployment. cbn [orb].
    rewrite isDocumentRequest_is_document.
    destruct H as [M|[D|(pre & mid & post & U & L)]].
    - apply String.eqb_neq in M. now rewrite M.
    - rewrite D. cbn. now rewrite orb_true_r.
    - rewrite (vercel_anywhere _ pre mid post U L).
      now rewrite !orb_true_r. }
  split.
  - now rewrite handleDeployment_run, O.
  - apply pass_through_exits. now left.
Qed.

Lemma C9_ineligible_witness :
  NextRequest.method (Demo.post "/") <> "GET"
  /\ Demo.run Demo.world (Demo.post "/")
     = (inr Base, logged (Demo.store (Demo.post "/")) skip_events).
Proof.
  assert (M : NextRequest.method (Demo.post "/") <> "GET") by discriminate.
  split; [exact M|].
  exact (proj1 (C9_ineligible_passes_through Demo.world (Demo.post "/")
                  "1762164000000" "nectarsleep-production-rc-configuration"
                  "rc.example.com" (Demo.store (Demo.post "/"))
                  (or_introl M))).
Defined.

(** ** The split configuration *)

Lemma no_warn_in_status_events (r : Response.t) :
  existsb is_warn (status_events r) = false.
Proof. unfold status_events. now destruct (400 <=? Response.status r)%Z. Qed.

Lemma no_warn_from_proxy (rt : Runtime) (req : NextRequest.t)
    (uuid rcDomain : string) (st : Store) (pre : list Event) :
  existsb is_warn pre = false ->
  existsb is_warn
    (since st (snd (fetchRCDeployment rt req uuid rcDomain (logged st pre))))
  = false.
Proof.
  intros P. rewrite fetchRCDeployment_run.
  destruct (formatDeploymentUrl rt rcDomain) as [e|target]; cbn [snd].
  - now rewrite since_logged.
  - destruct (upstream rt _ _) as [r|]; cbn [snd];
      rewrite proxied_logged, since_proxied, existsb_app, P; cbn [orb].
    + unfold proxy_events. cbn [existsb is_warn orb].
      apply no_warn_in_status_events.
    + reflexivity.
Qed.

(** C10.  The split configuration of [handleDeployment] is the constant
    [{ trafficRcPercent: 90 }].  The branch for a missing configuration is
    never taken: no run issues its warning.  A request that reaches the
    split is decided by the draw against the weight 90, the release
    candidate exactly when the draw is below 90; and the [config] argument
    has no influence on the run. *)
Theorem C10_weight_is_constant (rt : Runtime) (request : NextRequest.t)
    (uuid config rcDomain : string) (st : Store) :
  productionRcConfig = Some {| trafficRcPercent := 90 # 1 |}
  /\ (forall config' : string,
        handleDeployment rt request uuid config' rcDomain st
        = handleDeployment rt request uuid config rcDomain st)
  /\ existsb is_warn
       (since st (snd (handleDeployment rt request uuid config rcDomain st)))
     = false
  /\ (origin_of request st = random ->
      handleDeployment rt request uuid config rcDomain st
      = match selectBlueGreenDeployment rt {| trafficRcPercent := 90 # 1 |} with
        | rc =>
            fetchRCDeployment rt request uuid rcDomain
              (logged st split_rc_events)
        | production => (inr Base, production_store rt st)
        end
      /\ (selectBlueGreenDeployment rt {| trafficRcPercent := 90 # 1 |} = rc
          <-> (random_x100 rt < 90 # 1)%Q)).
Proof.
  split; [reflexivity|]. split; [reflexivity|]. split.
  - rewrite handleDeployment_run.
    destruct (origin_of request st);
      try (cbn [snd]; now rewrite since_logged);
      try (now apply no_warn_from_proxy).
    destruct (Qltb (random_x100 rt) (90 # 1)).
    + now apply no_warn_from_proxy.
    + cbn [snd]. unfold since, production_store; simpl.
      rewrite skipn_app, skipn_all, Nat.sub_diag. reflexivity.
  - intros O. rewrite handleDeployment_run, O.
    unfold selectBlueGreenDeployment; cbn [trafficRcPercent].
    destruct (Qltb (random_x100 rt) (90 # 1)) eqn:E.
    + split; [reflexivity|]. apply Qltb_lt in E. now split.
    + split; [reflexivity|]. apply Qltb_ge in E.
      split; [discriminate|]. intros L. exfalso. lra.
Qed.

Lemma C10_weight_witness :
  origin_of Demo.plain (Demo.store Demo.plain) = random
  /\ (random_x100 Demo.world < 90 # 1)%Q
  /\ (90 # 1 <= random_x100 Demo.world_high)%Q
  /\ Demo.run Demo.world Demo.plain
     = fetchRCDeployment Demo.world Demo.plain "1762164000000" "rc.example.com"
         (logged (Demo.store Demo.plain) split_rc_events)
  /\ Demo.run Demo.world_high Demo.plain
     = (inr Base, production_store Demo.world_high (Demo.store Demo.plain)).
Proof.
  split; [reflexivity|].
  split; [unfold Qlt; simpl; lia|]. split; [unfold Qle; simpl; lia|].
  split.
  - exact (proj1 (proj2 (proj2 (proj2
             (C10_weight_is_constant Demo.world Demo.plain "1762164000000"
                "nectarsleep-production-rc-configuration" "rc.example.com"
                (Demo.store Demo.plain)))) eq_refl)).
  - exact (proj1 (proj2 (proj2 (proj2
             (C10_weight_is_constant Demo.world_high Demo.plain "1762164000000"
                "nectarsleep-production-rc-configuration" "rc.example.com"
                (Demo.store Demo.plain)))) eq_refl)).
Defined.

(** * Further properties of the routing pipeline *)

Lemma since_run (st : Store) (h : Headers.t) (b : Response.t)
    (evs : list Event) :
  since st {| forwarded := h; base := b; journal := (journal st ++ evs)%list |}
  = evs.
Proof.
  unfold since; simpl. rewrite skipn_app, skipn_all, Nat.sub_diag. reflexivity.
Qed.

(** A run goes to the merger after console calls only, or it does not and
    returns the base object, pinned to production or as it was. *)
Lemma handleDeployment_cases (rt : Runtime) (request : NextRequest.t)
    (uuid config rcDomain : string) (st : Store) :
  (proxies rt request st = true
   /\ exists pre : list Event,
        fetches pre = [] /\ existsb is_error_log pre = false
        /\ handleDeployment rt request uuid config rcDomain st
           = fetchRCDeployment rt request uuid rcDomain (logged st pre))
  \/ (proxies rt request st = false
      /\ exists evs : list Event,
           fetches evs = [] /\ existsb is_error_log evs = false
           /\ (handleDeployment rt request uuid config rcDomain st
               = (inr Base, logged st evs)
               \/ (origin_of request st = random
                   /\ handleDeployment rt request uuid config rcDomain st
                      = (inr Base, production_store rt st)
                   /\ evs = split_production_events))).
Proof.
  rewrite handleDeployment_run. unfold proxies.
  destruct (origin_of request st).
  - right. split; [reflexivity|]. exists skip_events. now repeat split; try left.
  - right. split; [reflexivity|].
    exists sticky_false_events. now repeat split; try left.
  - right. split; [reflexivity|].
    exists loop_guard_events. now repeat split; try left.
  - left. split; [reflexivity|]. now exists forced_path_events.
  - left. split; [reflexivity|]. now exists sticky_true_events.
  - destruct (Qltb (random_x100 rt) (90 # 1)).
    + left. split; [reflexivity|]. now exists split_rc_events.
    + right. split; [reflexivity|]. exists split_production_events.
      split; [reflexivity|]. split; [reflexivity|]. right. now repeat split.
Qed.

(** What a run sends upstream: nothing, or the one request of the proxy. *)
Lemma handleDeployment_fetches (rt : Runtime) (request : NextRequest.t)
    (uuid config rcDomain : string) (st : Store) :
  fetches (since st (snd (handleDeployment rt request uuid config rcDomain st)))
  = []
  \/ exists target : string,
       formatDeploymentUrl rt rcDomain = inr target
       /\ proxies rt request st = true
       /\ fetches (since st (snd (handleDeployment rt request uuid config
                                    rcDomain st)))
          = [Fetch (upstream_url request target) (upstream_init st target)].
Proof.
  destruct (handleDeployment_cases rt request uuid config rcDomain st)
    as [[P (pre & F & _ & E)]|[_ (evs & F & _ & [E|(_ & E & ->)])]].
  - rewrite E.
    pose proof (fetchRCDeployment_fetches rt request uuid rcDomain st pre F) as S.
    destruct (formatDeploymentUrl rt rcDomain) as [e|target];
      [now left|right]. now exists target.
  - left. rewrite E. cbn [snd]. now rewrite since_logged.
  - left. rewrite E. cbn [snd]. unfold production_store.
    now rewrite since_run.
Qed.



(** X2.  The random draw is consulted only at the split: for a request
    whose decision has another origin (ineligible, a sticky cookie, the loop
    guard, the reserved path) the whole run, result, store and trace, is the
    same for every draw. *)
Theorem X2_draw_matters_only_at_split (rt : Runtime) (request : NextRequest.t)
    (uuid config rcDomain : string) (st : Store) (draw : Q) :
  origin_of request st <> random ->
  handleDeployment (with_draw rt draw) request uuid config rcDomain st
  = handleDeployment rt request uuid config rcDomain st.
Proof.
  intros O. rewrite !handleDeployment_run.
  destruct (origin_of request st); try reflexivity.
  now destruct O.
Qed.

Lemma X2_draw_witness :
  origin_of Demo.pinned_to_rc (Demo.store Demo.pinned_to_rc) <> random
  /\ Demo.run (with_draw Demo.world (99 # 1)) Demo.pinned_to_rc
     = Demo.run Demo.world Demo.pinned_to_rc.
Proof.
  assert (O : origin_of Demo.pinned_to_rc (Demo.store Demo.pinned_to_rc)
              <> random) by (vm_compute; discriminate).
  split; [exact O|].
  exact (X2_draw_matters_only_at_split Demo.world Demo.pinned_to_rc
           "1762164000000" "nectarsleep-production-rc-configuration"
           "rc.example.com" (Demo.store Demo.pinned_to_rc) (99 # 1) O).
Defined.




(** X4.  A target that the resolver rejects stops the proxy before anything
    happens: the run throws the resolver's error, sends no request, and
    leaves the forwarded headers and the base response as they were. *)
Theorem X4_rejected_target_stops_proxy (rt : Runtime) (request : NextRequest.t)
    (uuid config rcDomain : string) (st : Store) (e : Exn) :
  proxies rt request st = true ->
  formatDeploymentUrl rt rcDomain = inl e ->
  fst (handleDeployment rt request uuid config rcDomain st) = inl e
  /\ fetches (since st (snd (handleDeployment rt request uuid config
                               rcDomain st))) = []
  /\ forwarded (snd (handleDeployment rt request uuid config rcDomain st))
     = forwarded st
  /\ base (snd (handleDeployment rt request uuid config rcDomain st)) = base st.
Proof.
  intros P T.
  destruct (handleDeployment_cases rt request uuid config rcDomain st)
    as [[_ (pre & F & _ & E)]|[N _]]; [|congruence].
  rewrite E, fetchRCDeployment_run, T. cbn [fst snd].
  rewrite since_logged. now repeat split.
Qed.

Lemma X4_rejected_target_witness :
  proxies Demo.world Demo.forced (Demo.store Demo.forced) = true
  /\ formatDeploymentUrl Demo.world "httpbin.org" = inl (TypeError "Invalid URL")
  /\ fst (Scenario.run_to Demo.world Demo.forced "httpbin.org")
     = inl (TypeError "Invalid URL")
  /\ fetches (since (Demo.store Demo.forced)
                (snd (Scenario.run_to Demo.world Demo.forced "httpbin.org")))
     = [].
Proof.
  split; [reflexivity|]. split; [reflexivity|].
  pose proof (X4_rejected_target_stops_proxy Demo.world Demo.forced
                "1762164000000" "nectarsleep-production-rc-configuration"
                "httpbin.org" (Demo.store Demo.forced)
                (TypeError "Invalid URL") eq_refl eq_refl) as H.
  split; [exact (proj1 H)|exact (proj1 (proj2 H))].
Defined.



(** X6.  No run sends more than one request upstream, whatever the request,
    the target, the draw and the network are. *)
Theorem X6_at_most_one_upstream_request (rt : Runtime) (request : NextRequest.t)
    (uuid config rcDomain : string) (st : Store) :
  (length (fetches (since st (snd (handleDeployment rt request uuid config
                                     rcDomain st)))) <= 1)%nat.
Proof.
  destruct (handleDeployment_fetches rt request uuid config rcDomain st)
    as [E|(target & _ & _ & E)]; rewrite E; simpl; lia.
Qed.

(** Closes the frame conditions of a run that wrote to no object. *)
Ltac untouched :=
  split; [reflexivity|]; split; [intros _; reflexivity|];
  split; [reflexivity|]; split; [reflexivity|];
  let D := fresh in intros D; now destruct D.

(** X7.  What a run writes.  Of the forwarded headers it touches at most
    the marker [x-deployment-override], and nothing at all when it sends no
    request; the status and the body of the base response stay as they
    were, and the base response is written to only when the split draws
    production. *)
Theorem X7_what_a_run_writes (rt : Runtime) (request : NextRequest.t)
    (uuid config rcDomain : string) (st : Store) :
  let '(_, st') := handleDeployment rt request uuid config rcDomain st in
  Headers.delete (forwarded st') "x-deployment-override"
  = Headers.delete (forwarded st) "x-deployment-override"
  /\ (fetches (since st st') = [] -> forwarded st' = forwarded st)
  /\ Response.status (base st') = Response.status (base st)
  /\ Response.body (base st') = Response.body (base st)
  /\ (base st' <> base st ->
      origin_of request st = random /\ (90 # 1 <= random_x100 rt)%Q).
Proof.
  destruct (handleDeployment_cases rt request uuid config rcDomain st)
    as [[_ (pre & F & _ & E)]|[N (evs & F & _ & [E|(O & E & ->)])]];
    rewrite E.
  - rewrite fetchRCDeployment_run.
    destruct (formatDeploymentUrl rt rcDomain) as [e|target].
    + cbn [logged forwarded base]. untouched.
    + destruct (upstream rt _ _) as [up|];
        rewrite proxied_logged; cbn [proxied forwarded base];
        (split; [apply delete_set|]);
        (split; [rewrite since_proxied, fetches_app, F; cbn [app]|]);
        try rewrite fetches_proxy_events; try discriminate;
        (split; [reflexivity|]); (split; [reflexivity|]);
        intros D; now destruct D.
  - cbn [logged forwarded base]. untouched.
  - unfold production_store, pinned_to_production.
    cbn [forwarded base Response.status Response.body Response.headers].
    split; [reflexivity|]. split; [reflexivity|]. split; [reflexivity|].
    split; [reflexivity|].
    intros _. split; [exact O|].
    unfold proxies in N. rewrite O in N. now apply Qltb_ge.
Qed.

Lemma host_name_truthy (target : string) :
  host_name target = true -> Js.truthy (Some target) = true.
Proof. destruct target; [discriminate|reflexivity]. Qed.

(** X8.  The marker closes the loop.  When a run proxies to a target that
    resolves to a host name, a request that arrives with the headers it
    sent upstream is passed through by the pipeline, for every runtime,
    target and store: nothing is proxied a second time. *)
Theorem X8_marker_closes_loop (rt : Runtime) (request : NextRequest.t)
    (uuid config rcDomain : string) (st : Store)
    (target : string) (url : URL.t) (init : RequestInit) :
  formatDeploymentUrl rt rcDomain = inr target ->
  host_name target = true ->
  In (Fetch url init)
     (since st (snd (handleDeployment rt request uuid config rcDomain st))) ->
  forall (rt' : Runtime) (request' : NextRequest.t)
         (uuid' config' rcDomain' : string) (st' : Store),
    NextRequest.headers request' = init_headers init ->
    passes_through st'
      (handleDeployment rt' request' uuid' config' rcDomain' st').
Proof.
  intros T host sent rt' request' uuid' config' rcDomain' st' same.
  assert (I : init = upstream_init st target).
  { assert (S : In (Fetch url init)
                  (fetches (since st (snd (handleDeployment rt request uuid
                                             config rcDomain st)))))
      by (apply filter_In; now split).
    destruct (handleDeployment_fetches rt request uuid config rcDomain st)
      as [E|(target' & T' & _ & E)]; rewrite E in S.
    - destruct S.
    - destruct S as [S|[]]. injection S as _ <-. congruence. }
  apply pass_through_exits, origin_of_marked.
  rewrite same, I. cbn [upstream_init init_headers].
  rewrite get_set_same. now apply host_name_truthy.
Qed.

Lemma X8_marker_witness :
  formatDeploymentUrl Demo.world "rc.example.com" = inr "rc.example.com"
  /\ host_name "rc.example.com" = true
  /\ In (Fetch (upstream_url Demo.forced "rc.example.com")
               (upstream_init (Demo.store Demo.forced) "rc.example.com"))
        (since (Demo.store Demo.forced) (snd (Demo.run Demo.world Demo.forced)))
  /\ passes_through (Demo.store Demo.marked)
       (Demo.run Demo.world Demo.marked).
Proof.
  assert (sent : In (Fetch (upstream_url Demo.forced "rc.example.com")
                       (upstream_init (Demo.store Demo.forced) "rc.example.com"))
                    (since (Demo.store Demo.forced)
                       (snd (Demo.run Demo.world Demo.forced))))
    by (right; left; reflexivity).
  split; [reflexivity|]. split; [reflexivity|]. split; [exact sent|].
  exact (X8_marker_closes_loop Demo.world Demo.forced "1762164000000"
           "nectarsleep-production-rc-configuration" "rc.example.com"
           (Demo.store Demo.forced) "rc.example.com" _ _ eq_refl eq_refl sent
           Demo.world Demo.marked "1762164000000"
           "nectarsleep-production-rc-configuration" "rc.example.com"
           (Demo.store Demo.marked) eq_refl).
Defined.

(** ** The cookie map of the base response *)

Lemma jar_set_keys (jar : list (string * string)) (name line k : string) :
  In k (map fst (ResponseCookies.jar_set jar name line)) ->
  k = name \/ In k (map fst jar).
Proof.
  induction jar as [|e jar IH]; simpl.
  - intros [H|[]]. now left.
  - destruct (fst e =? name) eqn:E; simpl.
    + intros [H|H]; [now left|right; now right].
    + intros [H|H]; [right; now left|].
      destruct (IH H) as [K|K]; [now left|right; now right].
Qed.

Lemma jar_set_nodup (jar : list (string * string)) (name line : string) :
  NoDup (map fst jar) ->
  NoDup (map fst (ResponseCookies.jar_set jar name line)).
Proof.
  induction jar as [|e jar IH]; simpl; intros N.
  - constructor; [intros []|constructor].
  - inversion N as [|k ks notin N']; subst.
    destruct (fst e =? name) eqn:E; simpl.
    + apply String.eqb_eq in E. constructor; [congruence|exact N'].
    + constructor; [|now apply IH].
      intros K. destruct (jar_set_keys _ _ _ _ K) as [K'|K'].
      * apply String.eqb_neq in E. congruence.
      * now apply notin.
Qed.

Lemma jar_set_named (jar : list (string * string)) (name line : string) :
  Forall (fun e => fst e = ResponseCookies.cookie_name (snd e)) jar ->
  name = ResponseCookies.cookie_name line ->
  Forall (fun e => fst e = ResponseCookies.cookie_name (snd e))
         (ResponseCookies.jar_set jar name line).
Proof.
  intros F N. induction F as [|e jar H F IH]; simpl.
  - constructor; [exact N|constructor].
  - destruct (fst e =? name); constructor; assumption.
Qed.

Lemma jar_of_sound (h : Headers.t) :
  NoDup (map fst (ResponseCookies.jar_of h))
  /\ Forall (fun e => fst e = ResponseCookies.cookie_name (snd e))
            (ResponseCookies.jar_of h).
Proof.
  unfold ResponseCookies.jar_of.
  assert (G : forall lines jar,
             NoDup (map fst jar)
             /\ Forall (fun e => fst e = ResponseCookies.cookie_name (snd e)) jar ->
             NoDup (map fst (fold_left
                      (fun jar line =>
                         ResponseCookies.jar_set jar
                           (ResponseCookies.cookie_name line) line) lines jar))
             /\ Forall (fun e => fst e = ResponseCookies.cookie_name (snd e))
                  (fold_left
                     (fun jar line =>
                        ResponseCookies.jar_set jar
                          (ResponseCookies.cookie_name line) line) lines jar)).
  { induction lines as [|l lines IH]; intros jar [N F]; simpl; [now split|].
    apply IH. split; [now apply jar_set_nodup|now apply jar_set_named]. }
  apply G. split; constructor.
Qed.

Lemma no_line_named (jar : list (string * string)) (name : string) :
  Forall (fun e => fst e = ResponseCookies.cookie_name (snd e)) jar ->
  ~ In name (map fst jar) ->
  filter (fun line => ResponseCookies.cookie_name line =? name) (map snd jar)
  = [].
Proof.
  intros F. induction F as [|e jar H F IH]; simpl; intros N; [reflexivity|].
  rewrite <- H.
  destruct (fst e =? name) eqn:E.
  - apply String.eqb_eq in E. destruct N. now left.
  - apply IH. intros K. apply N. now right.
Qed.

Lemma one_line_named (jar : list (string * string)) (name line : string) :
  NoDup (map fst jar) ->
  Forall (fun e => fst e = ResponseCookies.cookie_name (snd e)) jar ->
  ResponseCookies.cookie_name line = name ->
  filter (fun l => ResponseCookies.cookie_name l =? name)
         (map snd (ResponseCookies.jar_set jar name line))
  = [line].
Proof.
  intros N F L. subst name. induction F as [|e jar H F IH]; simpl.
  - now rewrite String.eqb_refl.
  - inversion N as [|k ks notin N']; subst k ks.
    destruct (fst e =? ResponseCookies.cookie_name line) eqn:E; simpl.
    + rewrite String.eqb_refl. f_equal.
      apply String.eqb_eq in E. apply no_line_named; [exact F|congruence].
    + rewrite <- H, E. now apply IH.
Qed.

(** X9.  Pinning a client to production replaces what the base response
    said before: when the split draws production, the response that comes
    back has exactly one [release_candidate] line, the new one with
    [Max-Age=86400], also when the base response already carried such
    lines. *)
Theorem X9_production_pin_replaces (rt : Runtime) (request : NextRequest.t)
    (uuid config rcDomain : string) (st : Store) :
  origin_of request st = random ->
  (90 # 1 <= random_x100 rt)%Q ->
  exists r : Response.t,
    outgoing (handleDeployment rt request uuid config rcDomain st) = Some r
    /\ fst (handleDeployment rt request uuid config rcDomain st) = inr Base
    /\ lines_of "release_candidate" r = [production_line rt].
Proof.
  intros O D. apply Qltb_ge in D.
  rewrite handleDeployment_run, O, D.
  exists (pinned_to_production rt (base st)).
  split; [reflexivity|]. split; [reflexivity|].
  unfold lines_of, pinned_to_production, ResponseCookies.set.
  cbn [Response.headers]. rewrite getSetCookie_write_back.
  destruct (jar_of_sound (Response.headers (base st))) as [N F].
  now apply one_line_named.
Qed.

Lemma X9_production_pin_witness :
  origin_of Demo.plain (Scenario.pinned_store Demo.plain) = random
  /\ (90 # 1 <= random_x100 Demo.world_high)%Q
  /\ lines_of "release_candidate" (base (Scenario.pinned_store Demo.plain))
     = ["release_candidate=false; Path=/"]
  /\ exists r : Response.t,
       outgoing (handleDeployment Demo.world_high Demo.plain "1762164000000"
                   "nectarsleep-production-rc-configuration" "rc.example.com"
                   (Scenario.pinned_store Demo.plain)) = Some r
       /\ lines_of "release_candidate" r = [production_line Demo.world_high].
Proof.
  assert (D : (90 # 1 <= random_x100 Demo.world_high)%Q)
    by (unfold Qle; simpl; lia).
  split; [reflexivity|]. split; [exact D|]. split; [reflexivity|].
  destruct (X9_production_pin_replaces Demo.world_high Demo.plain
              "1762164000000" "nectarsleep-production-rc-configuration"
              "rc.example.com" (Scenario.pinned_store Demo.plain) eq_refl D)
    as (r & R & _ & L).
  exists r. split; [exact R|exact L].
Defined.

(** ** The splitter, the classifier and the resolver *)

(** X10.  The splitter is monotone in the weight: a draw that selects the
    release candidate at one weight selects it at every larger weight. *)
Theorem X10_split_monotone (rt : Runtime) (w w' : Q) :
  (w <= w')%Q ->
  selectBlueGreenDeployment rt {| trafficRcPercent := w |} = rc ->
  selectBlueGreenDeployment rt {| trafficRcPercent := w' |} = rc.
Proof.
  unfold selectBlueGreenDeployment; cbn [trafficRcPercent]. intros L.
  destruct (Qltb (random_x100 rt) w) eqn:E; [|discriminate].
  intros _. apply Qltb_lt in E.
  assert (E' : Qltb (random_x100 rt) w' = true) by (apply Qltb_lt; lra).
  now rewrite E'.
Qed.

Lemma X10_split_monotone_witness :
  (60 # 1 <= 90 # 1)%Q
  /\ selectBlueGreenDeployment Demo.world {| trafficRcPercent := 60 # 1 |} = rc
  /\ selectBlueGreenDeployment Demo.world {| trafficRcPercent := 90 # 1 |} = rc.
Proof.
  assert (L : (60 # 1 <= 90 # 1)%Q) by (unfold Qle; simpl; lia).
  split; [exact L|]. split; [reflexivity|].
  exact (X10_split_monotone Demo.world (60 # 1) (90 # 1) L eq_refl).
Defined.

Lemma prefix_inv (n hay : string) :
  String.prefix n hay = true -> exists post : string, hay = n ++ post.
Proof.
  revert hay. induction n as [|c n IH]; intros hay H.
  - now exists hay.
  - destruct hay as [|d hay]; [discriminate|]. simpl in H.
    destruct (ascii_dec c d) as [->|]; [|discriminate].
    destruct (IH hay H) as [post ->]. now exists post.
Qed.

Lemma includes_inv (n hay : string) :
  Js.includes n hay = true ->
  exists pre post : string, hay = pre ++ n ++ post.
Proof.
  induction hay as [|c hay IH]; cbn [Js.includes]; intros H.
  - destruct (String.prefix n "") eqn:P; [|discriminate].
    destruct (prefix_inv _ _ P) as [post E]. now exists "", post.
  - destruct (String.prefix n (String c hay)) eqn:P.
    + destruct (prefix_inv _ _ P) as [post E]. now exists "", post.
    + destruct (IH H) as (pre & post & ->). now exists (String c pre), post.
Qed.

Lemma lower_split (a b s : string) :
  Js.lower s = a ++ b ->
  exists x y : string, s = x ++ y /\ Js.lower x = a /\ Js.lower y = b.
Proof.
  revert s. induction a as [|c a IH]; intros s H.
  - now exists "", s.
  - destruct s as [|d s]; [discriminate|]. simpl in H.
    injection H as Hc Hs. destruct (IH s Hs) as (x & y & -> & Lx & Ly).
    exists (String d x), y. simpl. now rewrite Hc, Lx.
Qed.

(** X11.  The infrastructure test on the user agent is exactly a search
    for the word [vercel] without regard to case: it holds if and only if
    the user agent has a part that is [vercel] once put in lower case. *)
Theorem X11_vercel_user_agent (userAgent : string) :
  isVercelUserAgent userAgent = true
  <-> exists pre mid post : string,
        userAgent = pre ++ mid ++ post /\ Js.lower mid = "vercel".
Proof.
  unfold isVercelUserAgent. split.
  - intros H. destruct (includes_inv _ _ H) as (a & b & E).
    destruct (lower_split _ _ _ E) as (pre & rest & -> & _ & R).
    destruct (lower_split _ _ _ R) as (mid & post & -> & M & _).
    now exists pre, mid, post.
  - intros (pre & mid & post & -> & M).
    rewrite !lower_app, M. apply includes_app.
Qed.

Lemma mentions_string_of_list (c : ascii) (l : list ascii) :
  mentions c (string_of_list_ascii l) = existsb (Ascii.eqb c) l.
Proof. unfold mentions. now rewrite list_ascii_of_string_of_list_ascii. Qed.

Lemma ltrim_incl (l : list ascii) (c : ascii) :
  In c (URL.ltrim l) -> In c l.
Proof.
  induction l as [|d l IH]; simpl; [easy|].
  destruct (URL.is_c0_or_space d); [intros H; right; now apply IH|easy].
Qed.

Lemma strip_mentions (c : ascii) (s : string) :
  mentions c (URL.strip s) = true -> mentions c s = true.
Proof.
  unfold URL.strip. rewrite mentions_string_of_list. unfold mentions.
  rewrite !existsb_exists. intros (d & I & E). exists d. split; [|exact E].
  apply filter_In in I. destruct I as [I _].
  apply in_rev, ltrim_incl, in_rev, ltrim_incl in I. exact I.
Qed.

Lemma mentions_cons (a c : ascii) (s : string) :
  mentions a (String c s) = Ascii.eqb a c || mentions a s.
Proof. reflexivity. Qed.

Lemma scheme_tail_colon (acc s : string) (p : string * string) :
  URL.scheme_tail acc s = Some p -> mentions ":" s = true.
Proof.
  revert acc. induction s as [|c s IH]; intros acc;
    cbn [URL.scheme_tail]; [discriminate|].
  rewrite mentions_cons.
  destruct (URL.is_scheme_char c).
  - intros H. apply IH in H. rewrite H. apply orb_true_r.
  - destruct (Ascii.eqb c ":") eqn:E; [|discriminate].
    intros _. rewrite Ascii.eqb_sym, E. reflexivity.
Qed.

Lemma scan_scheme_colon (s : string) (p : string * string) :
  URL.scan_scheme s = Some p -> mentions ":" s = true.
Proof.
  destruct s as [|c s]; cbn [URL.scan_scheme]; [discriminate|].
  destruct (URL.is_alpha c); [|discriminate].
  intros H. apply scheme_tail_colon in H.
  rewrite mentions_cons, H. apply orb_true_r.
Qed.

(** X12.  The resolver tests for the letters [http], not for a scheme: an
    identifier that begins with them and has no colon, a bare host name
    such as [httpbin.org], is handed to the [URL] constructor and makes the
    resolver throw instead of being returned. *)
Theorem X12_bare_http_host_is_rejected (rt : Runtime) (identifier : string) :
  String.prefix "http" identifier = true ->
  mentions ":" identifier = false ->
  formatDeploymentUrl rt identifier = inl (TypeError "Invalid URL").
Proof.
  intros P C. apply formatDeploymentUrl_without_scheme; [exact P|].
  destruct (URL.scan_scheme (URL.strip identifier)) as [p|] eqn:S;
    [|reflexivity].
  apply scan_scheme_colon, strip_mentions in S. congruence.
Qed.

Lemma X12_bare_http_host_witness :
  String.prefix "http" "httpbin.org" = true
  /\ mentions ":" "httpbin.org" = false
  /\ formatDeploymentUrl Demo.world "httpbin.org"
     = inl (TypeError "Invalid URL").
Proof.
  split; [reflexivity|]. split; [reflexivity|].
  exact (X12_bare_http_host_is_rejected Demo.world "httpbin.org"
           eq_refl eq_refl).
Defined.

(** * The echo routes *)

Lemma has_set (h : Headers.t) (n v : string) :
  Headers.has (Headers.set h n v) n = true.
Proof. now rewrite has_values, values_set_same. Qed.

Lemma in_set (h : Headers.t) (n v : string) :
  In (Js.lower n, v) (Headers.set h n v).
Proof.
  induction h as [|e h IH]; cbn [Headers.set]; [now left|].
  destruct (Headers.named n e); [now left|now right].
Qed.

Lemma insert_name_in (n : string) (names : list string) (k : string) :
  In k (Iteration.insert_name n names) <-> k = n \/ In k names.
Proof.
  induction names as [|m names IH]; cbn [Iteration.insert_name].
  - simpl. intuition congruence.
  - destruct (String.compare n m) eqn:C.
    + apply String.compare_eq_iff in C. subst m. simpl. intuition congruence.
    + simpl. intuition congruence.
    + simpl. rewrite IH. intuition congruence.
Qed.

Lemma names_in (h : Headers.t) (e : string * string) :
  In e h -> In (Js.lower (fst e)) (Iteration.names h).
Proof.
  induction h as [|d h IH]; [easy|]. cbn [Iteration.names fold_right].
  intros [->|H]; apply insert_name_in; [now left|right; now apply IH].
Qed.

Lemma values_lower (h : Headers.t) (n : string) :
  Headers.values h (Js.lower n) = Headers.values h n.
Proof. unfold Headers.values, Headers.named. now rewrite lower_idem. Qed.

(** A header that has just been set shows in the iteration, with the value
    it was set to. *)
Lemma entries_set (h : Headers.t) (n v : string) :
  Js.lower n <> "set-cookie" ->
  In (Js.lower n, v) (Iteration.entries (Headers.set h n v)).
Proof.
  intros ne. unfold Iteration.entries. apply in_flat_map.
  exists (Js.lower n). split.
  - pose proof (names_in _ _ (in_set h n v)) as I. cbn [fst] in I.
    now rewrite lower_idem in I.
  - apply String.eqb_neq in ne. rewrite ne, values_lower, values_set_same.
    now left.
Qed.

(** The runs of the two routes. *)
Ltac route_run :=
  unfold RouteA.GET, RouteB.GET, fetch_text, fetch, bind, the_headers,
    update_headers, emit, lift, ret, throw;
  cbv zeta; cbn [forwarded base journal];
  match goal with
  | |- context [Headers.has ?h ?n] => destruct (Headers.has h n)
  end; cbn [negb]; [reflexivity|];
  match goal with
  | |- context [new_URL ?r ?t] => destruct (new_URL r t)
  end; [reflexivity|]; cbn [forwarded base journal];
  match goal with
  | |- context [upstream ?r ?u ?i] => destruct (upstream r u i)
  end; reflexivity.

Lemma RouteA_run (rt : Runtime) (env : option string) (st : Store) :
  RouteA.GET rt env st =
  let marked := Headers.set (forwarded st) "x-initial-route" "a" in
  let init := {| init_method := None; init_headers := marked;
                 init_redirect := None |} in
  let st' := {| forwarded := marked; base := base st; journal := journal st |} in
  if Headers.has (forwarded st) "x-initial-route" then
    (inr {| reqHeaders := Iteration.entries (forwarded st);
            resHeaders := None |}, st)
  else
    match new_URL rt ("https://" ++ template env ++ "/api/b") with
    | inl e => (inl e, st')
    | inr u =>
        match upstream rt u init with
        | None =>
            (inl (TypeError "fetch failed"),
             {| forwarded := marked; base := base st;
                journal := (journal st ++ [Fetch u init])%list |})
        | Some res =>
            (inr {| reqHeaders := Iteration.entries marked;
                    resHeaders :=
                      Some (Iteration.entries (Response.headers res)) |},
             {| forwarded := marked; base := base st;
                journal := (journal st ++ [Fetch u init])%list |})
        end
    end.
Proof. destruct st. route_run. Qed.

Lemma RouteB_run (rt : Runtime) (env : option string) (st : Store) :
  RouteB.GET rt env st =
  let marked := Headers.set (forwarded st) "x-initial-route" "b" in
  let init := {| init_method := None; init_headers := marked;
                 init_redirect := None |} in
  let st' := {| forwarded := marked; base := base st; journal := journal st |} in
  if Headers.has (forwarded st) "x-initial-route" then
    (inr {| reqHeaders := Iteration.entries (forwarded st);
            resHeaders := None |}, st)
  else
    match new_URL rt ("https://" ++ template env ++ "/api/a") with
    | inl e => (inl e, st')
    | inr u =>
        match upstream rt u init with
        | None =>
            (inl (TypeError "fetch failed"),
             {| forwarded := marked; base := base st;
                journal := (journal st ++ [Fetch u init])%list |})
        | Some res =>
            (inr {| reqHeaders := Iteration.entries marked;
                    resHeaders :=
                      Some (Iteration.entries (Response.headers res)) |},
             {| forwarded := marked; base := base st;
                journal := (journal st ++ [Fetch u init])%list |})
        end
    end.
Proof. destruct st. route_run. Qed.

(** X13.  A route that gets a request without the mark sends it on exactly
    once, to the other route of the deployment, with the mark of its own
    name added; the mark is written into the headers of the request itself,
    so the answer lists it among the request headers, next to the headers
    of the response that came back. *)
Theorem X13_echo_sends_on_once (rt : Runtime) (env : option string)
    (st : Store) (u : URL.t) (res : Response.t) :
  Headers.has (forwarded st) "x-initial-route" = false ->
  (new_URL rt ("https://" ++ template env ++ "/api/b") = inr u ->
   upstream rt u
     {| init_method := None;
        init_headers := Headers.set (forwarded st) "x-initial-route" "a";
        init_redirect := None |} = Some res ->
   sent_on "a" (forwarded st) u res st (RouteA.GET rt env st))
  /\ (new_URL rt ("https://" ++ template env ++ "/api/a") = inr u ->
      upstream rt u
        {| init_method := None;
           init_headers := Headers.set (forwarded st) "x-initial-route" "b";
           init_redirect := None |} = Some res ->
      sent_on "b" (forwarded st) u res st (RouteB.GET rt env st)).
Proof.
  intros H. split; intros U R.
  - rewrite RouteA_run. cbv zeta. rewrite H, U, R. unfold sent_on.
    cbn [fst snd forwarded]. split; [reflexivity|].
    split; [apply (entries_set _ "x-initial-route" "a"); discriminate|].
    split; [reflexivity|apply since_run].
  - rewrite RouteB_run. cbv zeta. rewrite H, U, R. unfold sent_on.
    cbn [fst snd forwarded]. split; [reflexivity|].
    split; [apply (entries_set _ "x-initial-route" "b"); discriminate|].
    split; [reflexivity|apply since_run].
Qed.

Lemma X13_echo_witness :
  Headers.has Echo.browser "x-initial-route" = false
  /\ fst (RouteA.GET Echo.world Echo.deployment (arriving Echo.browser))
     = inr {| reqHeaders :=
                [("accept", "*/*, text/html"); ("cookie", "a=1");
                 ("x-initial-route", "a")];
              resHeaders := Some [("content-type", "application/json")] |}.
Proof.
  split; [reflexivity|].
  exact (proj1 (proj1 (X13_echo_sends_on_once Echo.world Echo.deployment
                         (arriving Echo.browser)
                         (URL.mk "https:" "" "" "example.vercel.app" ""
                                 "/api/b" "" "")
                         Echo.upstream_of_b eq_refl)
                  eq_refl eq_refl)).
Defined.

Lemma RouteA_sends (rt : Runtime) (env : option string) (st : Store)
    (url : URL.t) (init : RequestInit) :
  In (Fetch url init) (since st (snd (RouteA.GET rt env st))) ->
  init_headers init = Headers.set (forwarded st) "x-initial-route" "a".
Proof.
  rewrite RouteA_run. cbv zeta.
  destruct (Headers.has (forwarded st) "x-initial-route").
  - cbn [snd]. unfold since. rewrite skipn_all. intros [].
  - destruct (new_URL rt _) as [e|u]; cbn [snd].
    + unfold since; cbn [journal]. rewrite skipn_all. intros [].
    + destruct (upstream rt u _); cbn [snd]; rewrite since_run;
        (intros [E|[]]; now injection E as _ <-).
Qed.

Lemma RouteB_sends (rt : Runtime) (env : option string) (st : Store)
    (url : URL.t) (init : RequestInit) :
  In (Fetch url init) (since st (snd (RouteB.GET rt env st))) ->
  init_headers init = Headers.set (forwarded st) "x-initial-route" "b".
Proof.
  rewrite RouteB_run. cbv zeta.
  destruct (Headers.has (forwarded st) "x-initial-route").
  - cbn [snd]. unfold since. rewrite skipn_all. intros [].
  - destruct (new_URL rt _) as [e|u]; cbn [snd].
    + unfold since; cbn [journal]. rewrite skipn_all. intros [].
    + destruct (upstream rt u _); cbn [snd]; rewrite since_run;
        (intros [E|[]]; now injection E as _ <-).
Qed.

(** X14.  The two routes do not call each other for ever.  A request that
    one of them has sent on carries the mark, and either route answers a
    request with those headers at once: it sends nothing, throws nothing
    and leaves the headers alone, whatever the runtime is. *)
Theorem X14_echo_stops_after_one_hop (rt : Runtime) (env : option string)
    (st : Store) (url : URL.t) (init : RequestInit) :
  In (Fetch url init) (since st (snd (RouteA.GET rt env st)))
  \/ In (Fetch url init) (since st (snd (RouteB.GET rt env st))) ->
  forall (rt' : Runtime) (env' : option string) (st' : Store),
    forwarded st' = init_headers init ->
    RouteA.GET rt' env' st'
    = (inr {| reqHeaders := Iteration.entries (init_headers init);
              resHeaders := None |}, st')
    /\ RouteB.GET rt' env' st'
       = (inr {| reqHeaders := Iteration.entries (init_headers init);
                 resHeaders := None |}, st').
Proof.
  intros sent rt' env' st' same.
  assert (M : Headers.has (forwarded st') "x-initial-route" = true).
  { rewrite same.
    destruct sent as [S|S];
      [rewrite (RouteA_sends _ _ _ _ _ S)|rewrite (RouteB_sends _ _ _ _ _ S)];
      apply has_set. }
  rewrite RouteA_run, RouteB_run. cbv zeta. rewrite M, same. now split.
Qed.

Lemma X14_echo_witness :
  In (Fetch (URL.mk "https:" "" "" "example.vercel.app" "" "/api/b" "" "")
            {| init_method := None;
               init_headers := Headers.set Echo.browser "x-initial-route" "a";
               init_redirect := None |})
     (since (arriving Echo.browser)
        (snd (RouteA.GET Echo.world Echo.deployment (arriving Echo.browser))))
  /\ journal (snd (RouteB.GET Echo.world Echo.deployment
                     (arriving (Headers.set Echo.browser "x-initial-route" "a"))))
     = [].
Proof.
  assert (S : In (Fetch (URL.mk "https:" "" "" "example.vercel.app" ""
                                "/api/b" "" "")
                    {| init_method := None;
                       init_headers :=
                         Headers.set Echo.browser "x-initial-route" "a";
                       init_redirect := None |})
                 (since (arriving Echo.browser)
                    (snd (RouteA.GET Echo.world Echo.deployment
                            (arriving Echo.browser)))))
    by (left; reflexivity).
  split; [exact S|].
  exact (f_equal (fun out => journal (snd out))
           (proj2 (X14_echo_stops_after_one_hop Echo.world Echo.deployment
                     (arriving Echo.browser) _ _ (or_introl S)
                     Echo.world Echo.deployment
                     (arriving (Headers.set Echo.browser "x-initial-route" "a"))
                     eq_refl))).
Defined.

(** * The middleware *)

Lemma rcDomain_resolves (rt : Runtime) :
  formatDeploymentUrl rt rcDomain = inr rcDomain.
Proof. reflexivity. Qed.

(** X15.  The middleware swallows a failure of the transport.  It returns
    [undefined] instead of a response exactly when the run goes to the proxy
    and [fetch] rejects; the error is then written to the console and goes
    no further, and the response that the middleware had built is left as
    it was. *)
Theorem X15_middleware_swallows_failure (rt : Runtime) (fw : Framework)
    (request : NextRequest.t) :
  (fst (middleware rt fw request) = None
   <-> proxies rt request (handed_over rt fw request) = true
       /\ upstream rt (upstream_url request rcDomain)
            (upstream_init (handed_over rt fw request) rcDomain) = None)
  /\ (fst (middleware rt fw request) = None ->
      base (snd (middleware rt fw request)) = base_response rt fw request
      /\ exists evs : list Event,
           journal (snd (middleware rt fw request))
           = (evs ++ [Console Error
                        (Msg "middleware error: TypeError: fetch failed")])%list).
Proof.
  unfold middleware.
  destruct (handleDeployment_cases rt request (uuid_of fw)
              "nectarsleep-production-rc-configuration" rcDomain
              (handed_over rt fw request))
    as [[P (pre & _ & _ & E)]|[N (evs & _ & _ & [E|(_ & E & _)])]];
    rewrite E.
  - rewrite fetchRCDeployment_run, rcDomain_resolves.
    change (upstream_init (logged (handed_over rt fw request) pre) rcDomain)
      with (upstream_init (handed_over rt fw request) rcDomain).
    destruct (upstream rt _ _) as [up|]; cbn [fst snd].
    + split; [split; [discriminate|intros [_ H]; discriminate H]|discriminate].
    + split; [split; [now intros _|reflexivity]|].
      intros _. split; [reflexivity|].
      eexists. cbn [logged journal]. reflexivity.
  - cbn [fst snd].
    split; [split; [discriminate|intros [H _]; congruence]|discriminate].
  - cbn [fst snd].
    split; [split; [discriminate|intros [H _]; congruence]|discriminate].
Qed.

Lemma X15_middleware_witness :
  proxies Scenario.offline Visit.returning
    (handed_over Scenario.offline Visit.framework Visit.returning) = true
  /\ fst (middleware Scenario.offline Visit.framework Visit.returning) = None
  /\ fst (middleware Demo.world Visit.framework Visit.returning) <> None.
Proof.
  split; [reflexivity|]. split.
  - exact (proj2 (proj1 (X15_middleware_swallows_failure Scenario.offline
                           Visit.framework Visit.returning))
             (conj eq_refl eq_refl)).
  - discriminate.
Defined.

Lemma lines_after_set (rt : Runtime) (r : Response.t)
    (name value : string) (maxAge : Z) :
  Headers.getSetCookie (Response.headers (cookies_set rt r name value maxAge))
  = map snd
      (ResponseCookies.jar_set
         (fold_left
            (fun jar line =>
               ResponseCookies.jar_set jar (ResponseCookies.cookie_name line)
                 line)
            (Headers.getSetCookie (Response.headers r)) [])
         name
         (ResponseCookies.stringify (expires_at rt maxAge) name value maxAge)).
Proof.
  unfold cookies_set, ResponseCookies.set; cbn [Response.headers].
  apply getSetCookie_write_back.
Qed.

Lemma lines_after_session (r : Response.t) (name value : string) :
  Headers.getSetCookie (Response.headers (cookies_set_session r name value))
  = map snd
      (ResponseCookies.jar_set
         (fold_left
            (fun jar line =>
               ResponseCookies.jar_set jar (ResponseCookies.cookie_name line)
                 line)
            (Headers.getSetCookie (Response.headers r)) [])
         name (name ++ "=" ++ Text.encodeURIComponent value ++ "; Path=/")).
Proof.
  unfold cookies_set_session; cbn [Response.headers].
  apply getSetCookie_write_back.
Qed.

Lemma lines_after_append (r : Response.t) (name value : string) :
  Js.lower name <> "set-cookie" ->
  Headers.getSetCookie (Response.headers (Response.append r name value))
  = Headers.getSetCookie (Response.headers r).
Proof.
  intros ne. unfold Response.append, Headers.append, Headers.getSetCookie.
  cbn [Response.headers]. rewrite values_app.
  unfold Headers.values at 2. cbn [filter map].
  replace (Headers.named "set-cookie" (Js.lower name, value)) with false.
  - apply app_nil_r.
  - symmetry. unfold Headers.named. cbn [fst]. rewrite lower_idem.
    apply String.eqb_neq. exact ne.
Qed.

(** X16.  The cookies of the middleware.  On a response of the framework
    that has no cookie yet, the middleware sets [debug-uuid] always,
    [ser_uuid] when the request has no such cookie, and [cpn] when the query
    has a [cpn] that is not empty, in this order and each once; it never
    sets [authToken], with or without such a cookie on the request. *)
Theorem X16_cookies_of_middleware (rt : Runtime) (fw : Framework)
    (request : NextRequest.t) :
  Headers.getSetCookie
    (Response.headers (next fw (forwarded_headers fw request))) = [] ->
  Headers.getSetCookie (Response.headers (base_response rt fw request))
  = ([ResponseCookies.stringify (expires_at rt 3000) "debug-uuid"
        (uuid_of fw) 3000]
       ++ match NextRequest.cookie request "ser_uuid" with
          | None =>
              [ResponseCookies.stringify (expires_at rt 3000) "ser_uuid"
                 (uuid_of fw) 3000]
          | Some _ => []
          end
       ++ if Js.truthy (searchParams_get fw (NextRequest.nextUrl request) "cpn")
          then [("cpn="
                   ++ Text.encodeURIComponent
                        (Js.or_else
                           (searchParams_get fw (NextRequest.nextUrl request)
                              "cpn") "")
                   ++ "; Path=/")%string]
          else [])%list
  /\ lines_of "authToken" (base_response rt fw request) = [].
Proof.
  intros empty.
  assert (L : Headers.getSetCookie
                (Response.headers (base_response rt fw request))
              = ([ResponseCookies.stringify (expires_at rt 3000) "debug-uuid"
                    (uuid_of fw) 3000]
                   ++ match NextRequest.cookie request "ser_uuid" with
                      | None =>
                          [ResponseCookies.stringify (expires_at rt 3000)
                             "ser_uuid" (uuid_of fw) 3000]
                      | Some _ => []
                      end
                   ++ if Js.truthy (searchParams_get fw
                                      (NextRequest.nextUrl request) "cpn")
                      then [("cpn="
                               ++ Text.encodeURIComponent
                                    (Js.or_else
                                       (searchParams_get fw
                                          (NextRequest.nextUrl request) "cpn") "")
                               ++ "; Path=/")%string]
                      else [])%list).
  { unfold base_response. cbv zeta.
    rewrite lines_after_append by discriminate.
    generalize (uuid_of fw). intros uuid.
    assert (dead : (match NextRequest.cookie request "authToken" with
                    | None => true
                    | Some _ => false
                    end
                    && Js.truthy (option_map Text.spaces_to_plus
                                    (NextRequest.cookie request "authToken")))
                   = false)
      by (now destruct (NextRequest.cookie request "authToken")).
    rewrite dead.
    destruct (Js.truthy (searchParams_get fw (NextRequest.nextUrl request) "cpn"));
      destruct (NextRequest.cookie request "ser_uuid");
      repeat (rewrite ?lines_after_session, ?lines_after_set, ?empty;
              cbn [fold_left ResponseCookies.jar_set map snd fst app
                   ResponseCookies.cookie_name ResponseCookies.stringify
                   append Ascii.eqb Bool.eqb String.eqb]);
      reflexivity. }
  split; [exact L|].
  unfold lines_of. rewrite L.
  destruct (NextRequest.cookie request "ser_uuid");
    destruct (Js.truthy (searchParams_get fw (NextRequest.nextUrl request) "cpn"));
    reflexivity.
Qed.

Lemma X16_cookies_witness :
  Headers.getSetCookie
    (Response.headers
       (next Visit.framework
          (forwarded_headers Visit.framework Visit.first_visit))) = []
  /\ Headers.getSetCookie
       (Response.headers
          (base_response Demo.world Visit.framework Visit.first_visit))
     = ["debug-uuid=1762164000000; Path=/; Expires=Wed, 04 Nov 2026 10:00:00 GMT; Max-Age=3000";
        "ser_uuid=1762164000000; Path=/; Expires=Wed, 04 Nov 2026 10:00:00 GMT; Max-Age=3000";
        "cpn=spring%20sale; Path=/"].
Proof.
  split; [reflexivity|].
  exact (proj1 (X16_cookies_of_middleware Demo.world Visit.framework
                  Visit.first_visit eq_refl)).
Defined.

(** Solves [Js.lower a <> Js.lower b] for two names that are given. *)
Ltac other_name := let X := fresh in intro X; vm_compute in X; discriminate X.

(** The headers that the middleware hands on keep every header of the
    request that it does not set itself. *)
Lemma forwarded_headers_get (fw : Framework) (request : NextRequest.t)
    (name : string) :
  enriched name = false ->
  Headers.get (forwarded_headers fw request) name
  = Headers.get (NextRequest.headers request) name.
Proof.
  unfold enriched. cbn [existsb]. intros H.
  repeat (apply orb_false_iff in H;
          let E := fresh "E" in destruct H as [E H];
          apply String.eqb_neq in E).
  unfold forwarded_headers. cbv zeta.
  destruct (NextRequest.cookie request "authToken");
    destruct (negb (Js.truthy _));
    repeat (rewrite get_set_other by assumption); reflexivity.
Qed.

Lemma not_in_fetches (evs : list Event) (url : URL.t) (init : RequestInit) :
  fetches evs = [] -> ~ In (Fetch url init) evs.
Proof.
  intros F I.
  assert (S : In (Fetch url init) (fetches evs)) by (apply filter_In; now split).
  rewrite F in S. destruct S.
Qed.

(** The requests of the middleware: at most the one of the proxy. *)
Lemma middleware_fetches (rt : Runtime) (fw : Framework)
    (request : NextRequest.t) (url : URL.t) (init : RequestInit) :
  In (Fetch url init) (journal (snd (middleware rt fw request))) ->
  url = upstream_url request rcDomain
  /\ init = upstream_init (handed_over rt fw request) rcDomain.
Proof.
  unfold middleware.
  destruct (handleDeployment_cases rt request (uuid_of fw)
              "nectarsleep-production-rc-configuration" rcDomain
              (handed_over rt fw request))
    as [[P (pre & F & _ & E)]|[N (evs & F & _ & [E|(_ & E & ->)])]];
    rewrite E.
  - rewrite fetchRCDeployment_run, rcDomain_resolves.
    change (upstream_init (logged (handed_over rt fw request) pre) rcDomain)
      with (upstream_init (handed_over rt fw request) rcDomain).
    destruct (upstream rt _ _) as [up|]; cbn [snd];
      rewrite proxied_logged; cbn [proxied logged journal handed_over];
      intros I; repeat (apply in_app_or in I; destruct I as [I|I]);
      try (now apply not_in_fetches in I);
      try (destruct I as [I|I]; [discriminate I|]).
    + unfold proxy_events in I. destruct I as [I|[I|I]].
      * now injection I as <- <-.
      * discriminate I.
      * unfold status_events in I.
        destruct (400 <=? Response.status up)%Z; [|destruct I].
        destruct I as [I|[]]; discriminate I.
    + destruct I as [I|[]]. now injection I as <- <-.
  - cbn [snd logged journal handed_over]. intros [I|I]; [discriminate I|].
    now apply not_in_fetches in I.
  - cbn [snd production_store journal handed_over].
    intros [I|[I|[]]]; discriminate I.
Qed.

(** X17.  The enrichment of the headers does not change the routing
    decision: the pipeline that the middleware calls decides as it would
    on the headers of the inbound request.  So a request whose own user
    agent names [vercel] gets the response that the middleware has built,
    and nothing is sent upstream. *)
Theorem X17_decision_by_inbound_request (rt : Runtime) (fw : Framework)
    (request : NextRequest.t) :
  origin_of request (handed_over rt fw request)
  = origin_of request (arriving (NextRequest.headers request))
  /\ (isVercelUserAgent
        (Js.or_else (Headers.get (NextRequest.headers request) "user-agent") "")
      = true ->
      middleware rt fw request
      = (Some Base, logged (handed_over rt fw request) skip_events)).
Proof.
  assert (U : Headers.get (forwarded (handed_over rt fw request)) "user-agent"
              = Headers.get (NextRequest.headers request) "user-agent")
    by (apply forwarded_headers_get; reflexivity).
  split.
  - unfold origin_of. rewrite U. reflexivity.
  - intros V. unfold middleware. rewrite handleDeployment_run.
    unfold origin_of. rewrite U.
    unfold shouldSkipBlueGreenDeployment. rewrite V.
    now rewrite !orb_true_r.
Qed.

Lemma X17_decision_witness :
  isVercelUserAgent
    (Js.or_else (Headers.get (NextRequest.headers Visit.monitor) "user-agent") "")
  = true
  /\ fst (middleware Demo.world Visit.framework Visit.monitor) = Some Base.
Proof.
  split; [reflexivity|].
  exact (f_equal fst
           (proj2 (X17_decision_by_inbound_request Demo.world Visit.framework
                     Visit.monitor) eq_refl)).
Defined.

Lemma forwarded_ser_uuid (fw : Framework) (request : NextRequest.t) :
  Headers.get (forwarded_headers fw request) "ser_uuid" = Some (uuid_of fw).
Proof.
  unfold forwarded_headers. cbv zeta.
  destruct (NextRequest.cookie request "authToken");
    repeat (rewrite get_set_other by other_name); apply get_set_same.
Qed.

Lemma forwarded_pathname (fw : Framework) (request : NextRequest.t) :
  Headers.get (forwarded_headers fw request) "pathname"
  = Some (URL.pathname (NextRequest.nextUrl request)).
Proof.
  unfold forwarded_headers. cbv zeta.
  destruct (NextRequest.cookie request "authToken");
    repeat (rewrite get_set_other by other_name); apply get_set_same.
Qed.

Lemma forwarded_isMobile (fw : Framework) (request : NextRequest.t) :
  Headers.get (forwarded_headers fw request) "isMobile"
  = Some (if Js.strict_eq (device_type fw request) "mobile" then "1" else "0").
Proof.
  unfold forwarded_headers. cbv zeta.
  destruct (NextRequest.cookie request "authToken");
    repeat (rewrite get_set_other by other_name); apply get_set_same.
Qed.

Lemma forwarded_authToken (fw : Framework) (request : NextRequest.t) :
  Headers.get (NextRequest.headers request) "authToken" = None ->
  Headers.get (forwarded_headers fw request) "authToken"
  = match NextRequest.cookie request "authToken" with
    | Some _ => None
    | None => Some (Text.btoa (Js.show (now_token fw)))
    end.
Proof.
  intros absent. unfold forwarded_headers. cbv zeta.
  destruct (NextRequest.cookie request "authToken").
  - destruct (negb (Js.truthy _));
      repeat (rewrite get_set_other by other_name); exact absent.
  - rewrite get_set_other by other_name. apply get_set_same.
Qed.

(** X18.  What the middleware sends to the release candidate.  A request
    that it sends upstream goes to the host [rc-00301507.vercel-support.app]
    with the rest of the inbound URL, does not follow redirects, and
    carries the marker with that host, the [ser_uuid] of this run, the path
    and the device flag; a header of the inbound request that the
    middleware does not set is handed on as it came.  The token header is
    made up only for a request without an [authToken] cookie. *)
Theorem X18_upstream_request_of_middleware (rt : Runtime) (fw : Framework)
    (request : NextRequest.t) (url : URL.t) (init : RequestInit) :
  In (Fetch url init) (journal (snd (middleware rt fw request))) ->
  url = URL.set_hostname (NextRequest.nextUrl request)
          "rc-00301507.vercel-support.app"
  /\ init_redirect init = Some "manual"
  /\ Headers.get (init_headers init) "x-deployment-override"
     = Some "rc-00301507.vercel-support.app"
  /\ Headers.get (init_headers init) "ser_uuid" = Some (Js.show (now fw))
  /\ Headers.get (init_headers init) "pathname"
     = Some (URL.pathname (NextRequest.nextUrl request))
  /\ Headers.get (init_headers init) "isMobile"
     = Some (if Js.strict_eq (device_type fw request) "mobile"
             then "1" else "0")
  /\ (Headers.get (NextRequest.headers request) "authToken" = None ->
      Headers.get (init_headers init) "authToken"
      = match NextRequest.cookie request "authToken" with
        | Some _ => None
        | None => Some (Text.btoa (Js.show (now_token fw)))
        end)
  /\ (forall name : string,
        enriched name = false ->
        Js.lower name <> "x-deployment-override" ->
        Headers.get (init_headers init) name
        = Headers.get (NextRequest.headers request) name).
Proof.
  intros sent. destruct (middleware_fetches rt fw request url init sent)
    as [-> ->].
  cbn [upstream_init init_headers init_redirect handed_over forwarded].
  split; [reflexivity|]. split; [reflexivity|].
  split; [apply get_set_same|].
  split; [rewrite get_set_other by other_name; apply forwarded_ser_uuid|].
  split; [rewrite get_set_other by other_name; apply forwarded_pathname|].
  split; [rewrite get_set_other by other_name; apply forwarded_isMobile|].
  split.
  - intros absent. rewrite get_set_other by other_name.
    now apply forwarded_authToken.
  - intros name E ne. rewrite get_set_other by exact ne.
    now apply forwarded_headers_get.
Qed.

Lemma X18_upstream_request_witness :
  In (Fetch (upstream_url Visit.first_visit rcDomain)
            (upstream_init
               (handed_over Demo.world Visit.framework Visit.first_visit)
               rcDomain))
     (journal (snd (middleware Demo.world Visit.framework Visit.first_visit)))
  /\ URL.href (upstream_url Visit.first_visit rcDomain)
     = "https://rc-00301507.vercel-support.app/?cpn=spring%20sale"
  /\ Headers.get
       (init_headers
          (upstream_init
             (handed_over Demo.world Visit.framework Visit.first_visit)
             rcDomain)) "ser_uuid"
     = Some "1762164000000".
Proof.
  assert (S : In (Fetch (upstream_url Visit.first_visit rcDomain)
                    (upstream_init
                       (handed_over Demo.world Visit.framework
                          Visit.first_visit) rcDomain))
                 (journal (snd (middleware Demo.world Visit.framework
                                  Visit.first_visit))))
    by (do 3 right; left; reflexivity).
  split; [exact S|]. split; [reflexivity|].
  exact (proj1 (proj2 (proj2 (proj2
           (X18_upstream_request_of_middleware Demo.world Visit.framework
              Visit.first_visit _ _ S))))).
Defined.

(** X19.  One hop, end to end.  A request that a middleware has sent
    upstream is not proxied again by a middleware that receives it: for a
    request with the headers that were sent, the middleware returns the
    response it has built and sends nothing, whatever its runtime, clock
    and draw are; and it keeps the location header of the first hop instead
    of computing a new one. *)
Theorem X19_middleware_one_hop (rt : Runtime) (fw : Framework)
    (request : NextRequest.t) (url : URL.t) (init : RequestInit) :
  In (Fetch url init) (journal (snd (middleware rt fw request))) ->
  forall (rt' : Runtime) (fw' : Framework) (request' : NextRequest.t),
    NextRequest.headers request' = init_headers init ->
    fst (middleware rt' fw' request') = Some Base
    /\ fetches (journal (snd (middleware rt' fw' request'))) = []
    /\ base (snd (middleware rt' fw' request')) = base_response rt' fw' request'
    /\ Headers.get (forwarded_headers fw' request') "nextLocation"
       = Headers.get (init_headers init) "nextLocation".
Proof.
  intros sent rt' fw' request' same.
  destruct (middleware_fetches rt fw request url init sent) as [_ ->].
  assert (M : Js.truthy (Headers.get (NextRequest.headers request')
                           "x-deployment-override") = true)
    by (rewrite same; cbn [upstream_init init_headers];
        now rewrite get_set_same).
  split; [|split; [|split]].
  - unfold middleware.
    destruct (pass_through_exits rt' request' (uuid_of fw')
                "nectarsleep-production-rc-configuration" rcDomain
                (handed_over rt' fw' request')
                (origin_of_marked _ _ M)) as (evs & -> & _).
    reflexivity.
  - unfold middleware.
    destruct (pass_through_exits rt' request' (uuid_of fw')
                "nectarsleep-production-rc-configuration" rcDomain
                (handed_over rt' fw' request')
                (origin_of_marked _ _ M)) as (evs & -> & F).
    cbn [snd logged journal handed_over].
    change ([Console Log (Msg "req headers")] ++ evs)%list
      with (Console Log (Msg "req headers") :: evs).
    exact F.
  - unfold middleware.
    destruct (pass_through_exits rt' request' (uuid_of fw')
                "nectarsleep-production-rc-configuration" rcDomain
                (handed_over rt' fw' request')
                (origin_of_marked _ _ M)) as (evs & -> & _).
    reflexivity.
  - unfold forwarded_headers. cbv zeta. rewrite M. cbn [negb].
    destruct (NextRequest.cookie request' "authToken");
      repeat (rewrite get_set_other by other_name); now rewrite same.
Qed.

Lemma X19_one_hop_witness :
  In (Fetch (upstream_url Visit.first_visit rcDomain)
            (upstream_init
               (handed_over Demo.world Visit.framework Visit.first_visit)
               rcDomain))
     (journal (snd (middleware Demo.world Visit.framework Visit.first_visit)))
  /\ fst (middleware Demo.world_high Visit.framework
            (NextRequest.mk "GET" (Demo.page "/" "?cpn=spring%20sale")
               (init_headers
                  (upstream_init
                     (handed_over Demo.world Visit.framework Visit.first_visit)
                     rcDomain))
               []))
     = Some Base.
Proof.
  assert (S : In (Fetch (upstream_url Visit.first_visit rcDomain)
                    (upstream_init
                       (handed_over Demo.world Visit.framework
                          Visit.first_visit) rcDomain))
                 (journal (snd (middleware Demo.world Visit.framework
                                  Visit.first_visit))))
    by (do 3 right; left; reflexivity).
  split; [exact S|].
  exact (proj1 (X19_middleware_one_hop Demo.world Visit.framework
                  Visit.first_visit _ _ S Demo.world_high Visit.framework
                  (NextRequest.mk "GET" (Demo.page "/" "?cpn=spring%20sale")
                     (init_headers
                        (upstream_init
                           (handed_over Demo.world Visit.framework
                              Visit.first_visit) rcDomain))
                     [])
                  eq_refl)).
Defined.


